(** * Two-stage solution/criteria pipeline: embedding and properties

    Shallow embedding of
      - [src/crews/agents/leetcode_tasks.py]  (the contract records),
      - [src/crews/leetcode_crew.py]          (coordinator and normalizer),
      - [src/crew_api.py]                     (validation and aggregation),
      - [src/test_new/api.py]                 (string-list normalizer),
    followed by the properties of the specification, each stated over
    these definitions.

    Conventions.  A Python [str] is a [string]; one [ascii] stands for one
    character.  A Python [int] is a [Z].  A Python list is a [list].  A
    dict with a fixed set of literal keys is a record whose fields are the
    keys. *)

From Stdlib Require Import String Ascii List ZArith NArith Bool Lia.
From Stdlib Require Import Sorting.Sorted Sorting.Permutation.
From Stdlib Require Import Numbers.DecimalString.
Import ListNotations.
Local Open Scope string_scope.
Local Open Scope list_scope.

(** ** Python built-ins used by the sources *)

Module Py.

(** The double quote and line feed characters. *)
Definition dquote : ascii := "034"%char.
Definition backslash : ascii := "092"%char.
Definition newline : ascii := "010"%char.

(** [bool(s)] for a [str]: the empty string is falsy. *)
Definition truthy (s : string) : bool :=
  match s with
  | EmptyString => false
  | String _ _ => true
  end.

(** [bool(x)] for an [Optional[str]]: [None] and [''] are falsy. *)
Definition truthy_opt (x : option string) : bool :=
  match x with
  | None => false
  | Some s => truthy s
  end.

(** [a or b] on strings. *)
Definition or_else (a b : string) : string :=
  if truthy a then a else b.

(** [c.isspace()] for a character below U+0100. *)
Definition isspace (c : ascii) : bool :=
  let n := N_of_ascii c in
  (((9 <=? n) && (n <=? 13)) || ((28 <=? n) && (n <=? 32))
   || (n =? 133) || (n =? 160))%N.

Fixpoint lstrip_by (p : ascii -> bool) (s : string) : string :=
  match s with
  | EmptyString => EmptyString
  | String c s' => if p c then lstrip_by p s' else s
  end.

Fixpoint rstrip_by (p : ascii -> bool) (s : string) : string :=
  match s with
  | EmptyString => EmptyString
  | String c s' =>
      match rstrip_by p s' with
      | EmptyString => if p c then EmptyString else String c EmptyString
      | r => String c r
      end
  end.

(** [s.strip()] *)
Definition strip (s : string) : string :=
  lstrip_by isspace (rstrip_by isspace s).

(** [s.strip(chars)] *)
Definition strip_chars (chars : string) (s : string) : string :=
  let p := fun c => existsb (Ascii.eqb c) (list_ascii_of_string chars) in
  lstrip_by p (rstrip_by p s).

(** [len(s)] *)
Definition len (s : string) : Z := Z.of_nat (String.length s).

(** [s.startswith(p)] *)
Definition startswith (s p : string) : bool := String.prefix p s.

(** [s.endswith(p)] *)
Definition endswith (s p : string) : bool :=
  let n := String.length s in
  let m := String.length p in
  (m <=? n)%nat && String.eqb (String.substring (n - m) m s) p.

(** [s.find(sub)]: least index at which [sub] occurs, [-1] if none. *)
Fixpoint find_from (sub s : string) (i : Z) : Z :=
  if String.prefix sub s then i
  else match s with
       | EmptyString => (-1)%Z
       | String _ s' => find_from sub s' (i + 1)%Z
       end.

Definition find (s sub : string) : Z := find_from sub s 0%Z.

(** [s.rfind(sub)]: greatest index at which [sub] occurs, [-1] if none. *)
Fixpoint rfind_from (sub s : string) (i : Z) : Z :=
  match s with
  | EmptyString => if String.prefix sub s then i else (-1)%Z
  | String _ s' =>
      let r := rfind_from sub s' (i + 1)%Z in
      if (0 <=? r)%Z then r
      else if String.prefix sub s then i else (-1)%Z
  end.

Definition rfind (s sub : string) : Z := rfind_from sub s 0%Z.

(** [s[lo:hi]] for [0 <= lo]; the sources only slice with such bounds. *)
Definition slice (s : string) (lo hi : Z) : string :=
  String.substring (Z.to_nat lo) (Z.to_nat (hi - lo)) s.

(** [s[:n]] *)
Definition take (n : nat) (s : string) : string := String.substring 0 n s.

(** [s.replace('\\"', '"')]: every backslash-quote pair becomes a quote,
    scanning left to right. *)
Fixpoint replace_escaped_quotes (s : string) : string :=
  match s with
  | EmptyString => EmptyString
  | String c s' =>
      match s' with
      | String d s'' =>
          if Ascii.eqb c backslash && Ascii.eqb d dquote
          then String dquote (replace_escaped_quotes s'')
          else String c (replace_escaped_quotes s')
      | EmptyString => String c EmptyString
      end
  end.

(** [s.split(sep)] for a one-character separator. *)
Fixpoint split (sep : ascii) (s : string) : list string :=
  match s with
  | EmptyString => [EmptyString]
  | String c s' =>
      if Ascii.eqb c sep then EmptyString :: split sep s'
      else match split sep s' with
           | [] => [String c EmptyString]
           | h :: t => String c h :: t
           end
  end.

(** [str(n)] for a non-negative [int]. *)
Definition str_of_nat (n : nat) : string :=
  NilEmpty.string_of_uint (Nat.to_uint n).

(** [s.replace(old, new)] for one-character [old] and [new]. *)
Fixpoint replace_char (old new : ascii) (s : string) : string :=
  match s with
  | EmptyString => EmptyString
  | String c s' =>
      String (if Ascii.eqb c old then new else c) (replace_char old new s')
  end.

(** [sep.join(parts)] *)
Fixpoint join (sep : string) (parts : list string) : string :=
  match parts with
  | [] => EmptyString
  | [part] => part
  | part :: rest => part ++ sep ++ join sep rest
  end.

(** [l[:n]] *)
Definition list_take {A : Type} (n : nat) (l : list A) : list A := firstn n l.

Section Sequences.
Context {A : Type}.
Variable key : A -> Z.

(** [sorted(l, key=key)].  The built-in is specified as a stable sort; it
    is rendered as the insertion of each element in front of the first
    later element whose key is not smaller. *)
Fixpoint insert_by (x : A) (l : list A) : list A :=
  match l with
  | [] => [x]
  | y :: l' => if (key x <=? key y)%Z then x :: l else y :: insert_by x l'
  end.

Fixpoint sorted (l : list A) : list A :=
  match l with
  | [] => []
  | x :: l' => insert_by x (sorted l')
  end.

(** [min(l, key=key)] on a non-empty list [x :: l]: the first element whose
    key is least (a later element replaces the candidate only when its key
    is strictly smaller). *)
Fixpoint min_from (best : A) (l : list A) : A :=
  match l with
  | [] => best
  | x :: l' => if (key x <? key best)%Z then min_from x l' else min_from best l'
  end.

Definition min (l : list A) : option A :=
  match l with
  | [] => None
  | x :: l' => Some (min_from x l')
  end.

(** The order [sorted] and [min] work with, and the test for one key. *)
Definition key_le (a b : A) : Prop := (key a <= key b)%Z.

Definition has_key (k : Z) (a : A) : bool := (key a =? k)%Z.

End Sequences.

End Py.

(** ** [leetcode_tasks.py]: the contract records *)

Module Tasks.

(** [class SolutionApproach(BaseModel)] *)
Record SolutionApproach : Type := {
  title : string;
  content : string;
  rank : Z;
  time_complexity : string;
  space_complexity : string;
  code : string;
  edge_cases : string;
  test_examples : string
}.

(** [class Criteria(BaseModel)]: the model declares [id] and [description]
    only, and [extra = ignore] discards any other key (such as
    [pattern]) at construction. *)
Record Criteria : Type := {
  id : string;
  description : string
}.

(** [class SolutionApproaches(BaseModel)] *)
Record SolutionApproaches : Type := {
  approaches : list SolutionApproach
}.

(** [class SolutionCriteria(BaseModel)] *)
Record SolutionCriteria : Type := {
  criteria : list Criteria
}.

End Tasks.

(** ** [leetcode_crew.py]: coordinator and normalizer *)

Module Crew.

(** What [task.output] can be once the crew has run: [None] (no
    [pydantic] attribute at all), a task output whose [pydantic] field is
    [None] (the generated text did not convert to the declared model), or
    a task output carrying the declared model. *)
Inductive TaskOutput (M : Type) : Type :=
| OutputNone
| OutputRaw (raw : string)
| OutputPydantic (pydantic : M).

Arguments OutputNone {M}.
Arguments OutputRaw {M} raw.
Arguments OutputPydantic {M} pydantic.

(** The outcome of lines 56-77 of [solve_leetcode_problem] (task creation
    and [crew.kickoff()]): either an exception with its message, or the
    two task outputs left behind by the sequential run. *)
Inductive Kickoff : Type :=
| KickoffRaised (message : string)
| KickoffDone (solution_output : TaskOutput Tasks.SolutionApproaches)
              (criteria_output : TaskOutput Tasks.SolutionCriteria).

(** [class SolutionResult(BaseModel)]; [solution_result.dict()] has the
    same four keys, so the record also stands for the returned dict. *)
Record SolutionResult : Type := {
  approaches : list Tasks.SolutionApproach;
  criteria : list Tasks.Criteria;
  status : string;
  error : string
}.

Definition set_approaches (v : list Tasks.SolutionApproach)
  (r : SolutionResult) : SolutionResult :=
  {| approaches := v; criteria := criteria r;
     status := status r; error := error r |}.

Definition set_criteria (v : list Tasks.Criteria)
  (r : SolutionResult) : SolutionResult :=
  {| approaches := approaches r; criteria := v;
     status := status r; error := error r |}.

Definition set_error (v : string) (r : SolutionResult) : SolutionResult :=
  {| approaches := approaches r; criteria := criteria r;
     status := status r; error := v |}.

(** [SolutionResult(status="success")] *)
Definition new_result : SolutionResult :=
  {| approaches := []; criteria := []; status := "success"; error := "" |}.

(** The fallback approach of lines 102-106 and 110-114. *)
Definition fallback_approach : Tasks.SolutionApproach :=
  {| Tasks.title := "Fallback Solution";
     Tasks.content :=
       "No structured approaches were generated. Please try again.";
     Tasks.rank := 1;
     Tasks.time_complexity := "";
     Tasks.space_complexity := "";
     Tasks.code := "";
     Tasks.edge_cases := "";
     Tasks.test_examples := "" |}.

(** The fallback criterion of lines 137-141. *)
Definition fallback_criterion : Tasks.Criteria :=
  {| Tasks.id := "fallbackCriterion";
     Tasks.description := "No structured criteria were generated." |}.

(** Lines 84-118.  [hasattr(output, 'pydantic')] fails for [OutputNone];
    [hasattr(approaches_data, 'approaches')] fails when the [pydantic]
    field is [None].  Ranks are integers, so [sorted] cannot raise and the
    handler of lines 116-118 is not entered. *)
Definition parse_approaches (output : TaskOutput Tasks.SolutionApproaches)
  (solution_result : SolutionResult) : SolutionResult :=
  match output with
  | OutputPydantic approaches_data =>
      set_approaches
        (Py.sorted Tasks.rank (Tasks.approaches approaches_data))
        solution_result
  | OutputRaw _ => set_approaches [fallback_approach] solution_result
  | OutputNone => set_approaches [fallback_approach] solution_result
  end.

(** The message of the [AttributeError] raised by [criteria_data.criteria]
    when [criteria_data] is [None]. *)
Definition none_has_no_criteria : string :=
  "'NoneType' object has no attribute 'criteria'".

(** Lines 123-145.  With a [pydantic] field that is [None], line 131
    raises; the handler of lines 143-145 extends [error] and leaves
    [criteria] as it was. *)
Definition parse_criteria (output : TaskOutput Tasks.SolutionCriteria)
  (solution_result : SolutionResult) : SolutionResult :=
  match output with
  | OutputPydantic criteria_data =>
      set_criteria (Tasks.criteria criteria_data) solution_result
  | OutputRaw _ =>
      set_error
        (error solution_result ++ " Error parsing educational insights: "
           ++ none_has_no_criteria)
        solution_result
  | OutputNone => set_criteria [fallback_criterion] solution_result
  end.

(** The agents together with the generation runtime behind them: what
    running the two tasks built from [problem_description] and [language]
    yields. *)
Record LeetCodeCrew : Type := {
  kickoff : string -> string -> Kickoff
}.

(** [LeetCodeCrew.solve_leetcode_problem] *)
Definition solve_leetcode_problem (self : LeetCodeCrew)
  (problem_description language : string) : SolutionResult :=
  match kickoff self problem_description language with
  | KickoffDone solution_output criteria_output =>
      parse_criteria criteria_output
        (parse_approaches solution_output new_result)
  | KickoffRaised e =>
      {| approaches := []; criteria := []; status := "error";
         error := "Error in LeetCodeCrew: " ++ e |}
  end.

End Crew.

(** ** [crew_api.py]: request validation and result aggregation *)

Module Api.

(** [class LeetCodeSolutionRequest(BaseModel)].  The metadata fields
    ([category], [constraints], [url], [id], [difficulty], ...) are never
    read by the endpoint and are left out. *)
Module Request.
Record t : Type := {
  title : string;
  content : string;
  programmingLanguage : option string;
  programLanguage : option string;
  language : option string
}.
End Request.

(** [LeetCodeSolutionRequest.check_language_field] (validator, mode
    "after"). *)
Definition check_language_field (self : Request.t) : Request.t :=
  if negb (Py.truthy_opt (Request.programmingLanguage self)
           || Py.truthy_opt (Request.programLanguage self)
           || Py.truthy_opt (Request.language self))
  then {| Request.title := Request.title self;
          Request.content := Request.content self;
          Request.programmingLanguage := Some "python";
          Request.programLanguage := Request.programLanguage self;
          Request.language := Request.language self |}
  else self.

(** [next((lang for lang in candidates if lang), default)] *)
Fixpoint first_truthy (candidates : list (option string)) (default : string)
  : string :=
  match candidates with
  | [] => default
  | lang :: rest =>
      if Py.truthy_opt lang
      then match lang with Some s => s | None => default end
      else first_truthy rest default
  end.

(** [class ApproachResponse(BaseModel)] *)
Module ApproachResponse.
Record t : Type := {
  title : string;
  content : string;
  rank : Z;
  time_complexity : string;
  space_complexity : string;
  code : string;
  edge_cases : string;
  test_examples : string
}.
End ApproachResponse.

(** One entry of [criteria_list] (lines 300-304). *)
Module Criterion.
Record t : Type := {
  id : string;
  description : string;
  pattern : string
}.
End Criterion.

(** The [result] dict of lines 173-179 and 249-252.  [solution_criteria]
    is a dict that is either empty ([None]) or holds the one key
    [criteria] ([Some]). *)
Module Result.
Record t : Type := {
  leetcode_problem : string;
  language : string;
  approaches : list ApproachResponse.t;
  solution_criteria : option (list Criterion.t);
  status : string;
  solutions : list Tasks.SolutionApproach;
  introduction : string;
  full_text : string;
  approach_count : Z
}.
End Result.

(** What the endpoint function returns: the two-key error dict of lines
    157-160 and 330-333, or the [result] dict. *)
Inductive Reply : Type :=
| ErrorDict (status message : string)
| ResultDict (result : Result.t).

(** [HTTPException(status_code, detail)] *)
Record HTTPException : Type := {
  status_code : Z;
  detail : string
}.

(** The process-wide state the endpoint touches: the environment
    variable, the function attribute [get_leetcode_crew.crew] ([None]
    while unset), and, as a record of what happened, the arguments of
    every [solve_leetcode_problem] call so far, latest first. *)
Record Process : Type := {
  OPENAI_API_KEY : option string;
  crew : option Crew.LeetCodeCrew;
  solve_calls : list (string * string)
}.

(** Computations over the process state that return or raise. *)
Definition M (A : Type) : Type := Process -> (A + HTTPException) * Process.

Definition ret {A : Type} (a : A) : M A := fun p => (inl a, p).

Definition raise {A : Type} (e : HTTPException) : M A := fun p => (inr e, p).

Definition lift {A : Type} (r : A + HTTPException) : M A := fun p => (r, p).

Definition bind {A B : Type} (m : M A) (f : A -> M B) : M B :=
  fun p =>
    match m p with
    | (inl a, p') => f a p'
    | (inr e, p') => (inr e, p')
    end.

Notation "x <- m ;; k" := (bind m (fun x => k))
  (at level 61, m at next level, right associativity).

Definition nl : string := String Py.newline EmptyString.

(** Lines 204-213; the dict comes from [SolutionResult.dict()], so every
    key is present and no [get] default applies. *)
Definition approach_response (approach_dict : Tasks.SolutionApproach)
  : ApproachResponse.t :=
  {| ApproachResponse.title := Tasks.title approach_dict;
     ApproachResponse.content := Tasks.content approach_dict;
     ApproachResponse.rank := Tasks.rank approach_dict;
     ApproachResponse.time_complexity := Tasks.time_complexity approach_dict;
     ApproachResponse.space_complexity := Tasks.space_complexity approach_dict;
     ApproachResponse.code := Tasks.code approach_dict;
     ApproachResponse.edge_cases := Tasks.edge_cases approach_dict;
     ApproachResponse.test_examples := Tasks.test_examples approach_dict |}.

(** Lines 226-228. *)
Definition make_introduction (approach_responses : list ApproachResponse.t)
  : string :=
  match Py.min ApproachResponse.rank approach_responses with
  | Some best_approach =>
      ApproachResponse.title best_approach ++ " - "
        ++ Py.take 200 (ApproachResponse.content best_approach) ++ "..."
  | None => ""
  end.

(** Lines 233-245, the parts appended for the approach at index [i]. *)
Definition full_text_parts (language : string) (i : nat)
  (approach : ApproachResponse.t) : string :=
  ("## Approach " ++ Py.str_of_nat (i + 1) ++ ": "
     ++ Py.or_else (ApproachResponse.title approach) "Solution" ++ nl ++ nl)
  ++ (ApproachResponse.content approach ++ nl ++ nl)
  ++ ("**Time Complexity**: "
        ++ Py.or_else (ApproachResponse.time_complexity approach)
             "Not specified" ++ nl)
  ++ ("**Space Complexity**: "
        ++ Py.or_else (ApproachResponse.space_complexity approach)
             "Not specified" ++ nl ++ nl)
  ++ (if Py.truthy (ApproachResponse.code approach)
      then "```" ++ language ++ nl ++ ApproachResponse.code approach ++ nl
             ++ "```" ++ nl ++ nl
      else "")
  ++ (if Py.truthy (ApproachResponse.edge_cases approach)
      then "**Edge Cases**: " ++ ApproachResponse.edge_cases approach
             ++ nl ++ nl
      else "")
  ++ (if Py.truthy (ApproachResponse.test_examples approach)
      then "**Test Examples**:" ++ nl
             ++ ApproachResponse.test_examples approach ++ nl ++ nl
      else "").

(** Lines 231-246: the loop over [enumerate(approach_responses)]. *)
Fixpoint make_full_text (language : string) (i : nat)
  (approach_responses : list ApproachResponse.t) : string :=
  match approach_responses with
  | [] => ""
  | approach :: rest =>
      full_text_parts language i approach
        ++ make_full_text language (S i) rest
  end.

(** Lines 263-269 and 300-304 for one criterion.  The entries come from
    [SolutionResult.dict()]: each is a dict with the keys [id] and
    [description] and no [pattern]. *)
Definition criterion_dict (criterion : Tasks.Criteria) : Criterion.t :=
  {| Criterion.id := Py.or_else (Tasks.id criterion) "";
     Criterion.description := Py.or_else (Tasks.description criterion) "";
     Criterion.pattern := Py.or_else "" "" |}.

(** Lines 173-319: the [result] dict before the final checks. *)
Definition build_result (problem_description language : string)
  (solution_result : Crew.SolutionResult) : Result.t :=
  let approach_responses :=
    map approach_response (Crew.approaches solution_result) in
  {| Result.leetcode_problem := problem_description;
     Result.language := language;
     Result.approaches := approach_responses;
     Result.solution_criteria :=
       Some (map criterion_dict (Crew.criteria solution_result));
     Result.status := "success";
     Result.solutions := Crew.approaches solution_result;
     Result.introduction := make_introduction approach_responses;
     Result.full_text := make_full_text language 0 approach_responses;
     Result.approach_count := Z.of_nat (List.length approach_responses) |}.

Definition default_criterion : Criterion.t :=
  {| Criterion.id := "defaultCriterion";
     Criterion.description :=
       "The solution must handle the given test cases correctly.";
     Criterion.pattern := "" |}.

(** Lines 335-344: the default is installed when the [solution_criteria]
    dict is empty or lacks the key [criteria]. *)
Definition ensure_solution_criteria (result : Result.t) : Result.t :=
  match Result.solution_criteria result with
  | Some _ => result
  | None =>
      {| Result.leetcode_problem := Result.leetcode_problem result;
         Result.language := Result.language result;
         Result.approaches := Result.approaches result;
         Result.solution_criteria := Some [default_criterion];
         Result.status := Result.status result;
         Result.solutions := Result.solutions result;
         Result.introduction := Result.introduction result;
         Result.full_text := Result.full_text result;
         Result.approach_count := Result.approach_count result |}
  end.

(** The test of line 156. *)
Definition too_short (problem_description : string) : bool :=
  negb (Py.truthy problem_description)
  || (Py.len (Py.strip problem_description) <? 10)%Z.

(** The language selection of lines 148-150. *)
Definition request_language (request : Request.t) : string :=
  first_truthy [Request.programmingLanguage request;
                Request.programLanguage request;
                Request.language request] "python".

(** The messages of lines 159 and 332. *)
Definition too_short_message : string :=
  "Problem description is too short or empty.".

Definition no_approaches_message : string :=
  "No solution approaches could be generated. Please try "
    ++ "again or modify your problem description.".

(** Lines 172-347: everything after the crew has answered.  The state is
    not touched; the outcome is the returned dict or the raised
    exception. *)
Definition aggregate (problem_description language : string)
  (solution_result : Crew.SolutionResult) : Reply + HTTPException :=
  let result := build_result problem_description language solution_result in
  if String.eqb (Crew.status solution_result) "error"
  then inr {| status_code := 500; detail := Crew.error solution_result |}
  else
    match Result.approaches result with
    | [] =>
        inl (ErrorDict "error" no_approaches_message)
    | _ :: _ => inl (ResultDict (ensure_solution_criteria result))
    end.

(** The process after one more [solve_leetcode_problem] call. *)
Definition logged (problem_description language : string) (p : Process)
  : Process :=
  {| OPENAI_API_KEY := OPENAI_API_KEY p;
     crew := crew p;
     solve_calls := (problem_description, language) :: solve_calls p |}.

Section Endpoint.

(** The constructor [LeetCodeCrew(api_key=...)]. *)
Variable LeetCodeCrew : string -> Crew.LeetCodeCrew.

(** [get_leetcode_crew] *)
Definition get_leetcode_crew : M Crew.LeetCodeCrew :=
  fun p =>
    match crew p with
    | Some c => (inl c, p)
    | None =>
        if Py.truthy_opt (OPENAI_API_KEY p)
        then
          let c := LeetCodeCrew
                     (match OPENAI_API_KEY p with Some k => k | None => "" end)
          in
          (inl c, {| OPENAI_API_KEY := OPENAI_API_KEY p;
                     crew := Some c;
                     solve_calls := solve_calls p |})
        else
          raise {| status_code := 500;
                   detail := "OpenAI API key not found. Please set the "
                               ++ "OPENAI_API_KEY environment variable." |}
            p
    end.

(** The call of lines 167-170, recorded in [solve_calls]. *)
Definition call_solve (c : Crew.LeetCodeCrew)
  (problem_description language : string) : M Crew.SolutionResult :=
  fun p =>
    (inl (Crew.solve_leetcode_problem c problem_description language),
     logged problem_description language p).

(** [generate_leetcode_solution].  No operation of the body raises
    anything other than [HTTPException], which lines 349-351 re-raise. *)
Definition generate_leetcode_solution (request : Request.t) : M Reply :=
  let problem_description := Request.content request in
  let language := request_language request in
  if too_short problem_description
  then ret (ErrorDict "error" too_short_message)
  else
    c <- get_leetcode_crew ;;
    solution_result <- call_solve c problem_description language ;;
    lift (aggregate problem_description language solution_result).

End Endpoint.

End Api.

(** ** [test_new/api.py]: normalizer for the string-list contract *)

Module TestNewApi.

(** What [crew_manager.analyze_problem] hands back, as the endpoint probes
    it: an object with a [tasks_output] list (each task output reduced to
    the text [str(task.raw)]), or a dict with the keys [solution] and
    [criteria] (each reduced to its [str]). *)
Inductive CrewResult : Type :=
| CrewOutput (tasks_output : list string)
| Dict (solution criteria : string).

(** [class CriteriaResponse(BaseModel)], the returned dict. *)
Record CriteriaResponse : Type := {
  criteria : list string;
  solution : string
}.

Section Analyze.

(** Decoded JSON values, with Python's [bool(v)] and [str(v)] on them. *)
Variable JSON : Type.
Variable json_truthy : JSON -> bool.
Variable json_str : JSON -> string.

(** [json.loads] on a text whose first non-blank character is an opening
    bracket: the decoded array, or [None] for [JSONDecodeError]. *)
Variable json_loads : string -> option (list JSON).

(** An element of [criteria_array]: a Python string or a decoded value. *)
Inductive Item : Type :=
| Text (s : string)
| Decoded (v : JSON).

Definition item_truthy (item : Item) : bool :=
  match item with
  | Text s => Py.truthy s
  | Decoded v => json_truthy v
  end.

Definition item_str (item : Item) : string :=
  match item with
  | Text s => s
  | Decoded v => json_str v
  end.

(** The test of lines 88 and 121. *)
Definition bracketed (criteria_text : string) : bool :=
  Py.startswith (Py.strip criteria_text) "["
  && Py.endswith (Py.strip criteria_text) "]".

Definition open_quote : string := String "[" (String Py.dquote EmptyString).
Definition quote_close : string := String Py.dquote "]".

(** Lines 96-103: the text handed to the second [json.loads], when the
    index test of line 99 passes. *)
Definition embedded_json (criteria_text : string) : option string :=
  let start_idx := Py.find criteria_text open_quote in
  let end_idx := Py.rfind criteria_text quote_close in
  if ((0 <=? start_idx) && (0 <=? end_idx) && (start_idx <? end_idx))%Z
  then
    Some (Py.replace_escaped_quotes
            (Py.slice criteria_text start_idx (end_idx + 2)))
  else None.

(** Line 108. *)
Definition split_lines (criteria_text : string) : list string :=
  map (fun line => Py.strip_chars (String Py.dquote EmptyString) (Py.strip line))
    (filter (fun line => Py.truthy (Py.strip line))
       (Py.split Py.newline criteria_text)).

(** Lines 93-112: the handler of [json.JSONDecodeError]. *)
Definition recover (criteria_text : string) : list Item :=
  match embedded_json criteria_text with
  | Some json_content =>
      match json_loads json_content with
      | Some criteria_array => map Decoded criteria_array
      | None => [Text criteria_text]
      end
  | None => map Text (split_lines criteria_text)
  end.

(** Lines 86-112. *)
Definition parse_task_criteria (criteria_text : string) : list Item :=
  if bracketed criteria_text
  then match json_loads criteria_text with
       | Some criteria_array => map Decoded criteria_array
       | None => recover criteria_text
       end
  else [Text criteria_text].

(** Lines 120-126. *)
Definition parse_dict_criteria (criteria_text : string) : list Item :=
  if bracketed criteria_text
  then match json_loads criteria_text with
       | Some criteria_array => map Decoded criteria_array
       | None => [Text criteria_text]
       end
  else [Text criteria_text].

(** Lines 65-126: [solution] and [criteria_array] after the two branches. *)
Definition extract (result : CrewResult) : string * list Item :=
  match result with
  | CrewOutput [] => ("No solution generated", [])
  | CrewOutput [task0] => (task0, [])
  | CrewOutput (task0 :: task1 :: _) => (task0, parse_task_criteria task1)
  | Dict solution criteria_text => (solution, parse_dict_criteria criteria_text)
  end.

(** Lines 128-139. *)
Definition respond (result : CrewResult) : CriteriaResponse :=
  let (solution, criteria_array) := extract result in
  let criteria_array :=
    match criteria_array with
    | [] => [Text "No criteria could be extracted"]
    | _ :: _ => criteria_array
    end in
  {| criteria :=
       map (fun item => Py.strip (item_str item))
         (filter item_truthy criteria_array);
     solution := solution |}.

End Analyze.

Arguments Text {JSON} s.
Arguments Decoded {JSON} v.

End TestNewApi.

(** ** Concrete runs used to exercise the properties *)

Module Scenario.

Definition two_sum_text : string :=
  "Given an array of integers nums and an integer target, return "
    ++ "indices of the two numbers such that they add up to target.".

Definition hash_map : Tasks.SolutionApproach :=
  {| Tasks.title := "Hash Map";
     Tasks.content := "Store each value with its index; look up the complement.";
     Tasks.rank := 1;
     Tasks.time_complexity := "O(n)";
     Tasks.space_complexity := "O(n)";
     Tasks.code := "def two_sum(nums, target): ...";
     Tasks.edge_cases := "Duplicates";
     Tasks.test_examples := "[2,7,11,15], 9 -> [0,1]" |}.

Definition brute_force : Tasks.SolutionApproach :=
  {| Tasks.title := "Brute Force";
     Tasks.content := "Try every pair of indices.";
     Tasks.rank := 2;
     Tasks.time_complexity := "O(n^2)";
     Tasks.space_complexity := "O(1)";
     Tasks.code := "";
     Tasks.edge_cases := "";
     Tasks.test_examples := "" |}.

Definition two_pointers : Tasks.SolutionApproach :=
  {| Tasks.title := "Sort and Two Pointers";
     Tasks.content := "Sort index pairs, then close in from both ends.";
     Tasks.rank := 2;
     Tasks.time_complexity := "O(n log n)";
     Tasks.space_complexity := "O(n)";
     Tasks.code := "";
     Tasks.edge_cases := "";
     Tasks.test_examples := "" |}.

Definition criterion (id description : string) : Tasks.Criteria :=
  {| Tasks.id := id; Tasks.description := description |}.

Definition uses_hash_map : Tasks.Criteria :=
  criterion "usesHashMapLookup" "Uses a hash map to look up complements.".

Definition early_return : Tasks.Criteria :=
  criterion "earlyReturnOnMatch" "Returns as soon as a pair is found.".

(** A second criterion reusing the id of [uses_hash_map]. *)
Definition uses_hash_map_again : Tasks.Criteria :=
  criterion "usesHashMapLookup" "Stores indices as the map values.".

Definition six_criteria : list Tasks.Criteria :=
  [ uses_hash_map; early_return;
    criterion "handlesEmptyInput" "Returns at once on an empty array.";
    criterion "singlePass" "Walks the array once.";
    criterion "checksComplement" "Computes target minus the current value.";
    criterion "returnsIndices" "Returns indices rather than values." ].

Definition approaches_output (l : list Tasks.SolutionApproach)
  : Crew.TaskOutput Tasks.SolutionApproaches :=
  Crew.OutputPydantic {| Tasks.approaches := l |}.

Definition criteria_output (l : list Tasks.Criteria)
  : Crew.TaskOutput Tasks.SolutionCriteria :=
  Crew.OutputPydantic {| Tasks.criteria := l |}.

(** A crew whose run always has the given outcome. *)
Definition crew_yielding (k : Crew.Kickoff) : Crew.LeetCodeCrew :=
  {| Crew.kickoff := fun _ _ => k |}.

(** The generation collaborator raises on every call. *)
Definition raising_crew : Crew.LeetCodeCrew :=
  crew_yielding (Crew.KickoffRaised "Request timed out.").

(** The first stage returns a well-formed but empty list. *)
Definition no_approach_crew : Crew.LeetCodeCrew :=
  crew_yielding
    (Crew.KickoffDone (approaches_output []) (criteria_output [uses_hash_map])).

(** Neither stage left a task output behind. *)
Definition silent_crew : Crew.LeetCodeCrew :=
  crew_yielding (Crew.KickoffDone Crew.OutputNone Crew.OutputNone).

Definition three_approach_crew : Crew.LeetCodeCrew :=
  crew_yielding
    (Crew.KickoffDone (approaches_output [brute_force; hash_map; two_pointers])
       (criteria_output six_criteria)).

Definition duplicate_id_crew : Crew.LeetCodeCrew :=
  crew_yielding
    (Crew.KickoffDone (approaches_output [hash_map])
       (criteria_output [uses_hash_map; uses_hash_map_again])).

Definition two_sum_request : Api.Request.t :=
  {| Api.Request.title := "Two Sum";
     Api.Request.content := two_sum_text;
     Api.Request.programmingLanguage := None;
     Api.Request.programLanguage := Some "java";
     Api.Request.language := Some "go" |}.

Definition blank_request : Api.Request.t :=
  {| Api.Request.title := "Two Sum";
     Api.Request.content := "   Two Sum   ";
     Api.Request.programmingLanguage := Some "python";
     Api.Request.programLanguage := None;
     Api.Request.language := None |}.

(** A process that has the key and has not built its crew yet. *)
Definition fresh_process : Api.Process :=
  {| Api.OPENAI_API_KEY := Some "sk-test";
     Api.crew := None;
     Api.solve_calls := [] |}.

Definition q : string := String Py.dquote EmptyString.

(** The raw text of the embedded-JSON scenario.  The dash is kept as its
    UTF-8 code units; every test made on this text looks at ASCII
    characters only. *)
Definition embedded_text : string :=
  "Here is the result: [" ++ q ++ "a" ++ q ++ ", " ++ q ++ "b" ++ q
    ++ "] — done".

End Scenario.

(** ** The specification's sentences, as predicates on runs *)

Module Spec.

Import Api.

(** *** Sentences the code departs from, as the specification states them *)

(** Fallback-never-empty: the run ends in a response whose approaches
    and criteria lists are both non-empty. *)
Definition fallback_never_empty (c : Crew.LeetCodeCrew)
  (problem_description language : string) : Prop :=
  exists result criteria,
    aggregate problem_description language
      (Crew.solve_leetcode_problem c problem_description language)
    = inl (ResultDict result)
    /\ Result.approaches result <> []
    /\ Result.solution_criteria result = Some criteria
    /\ criteria <> [].

(** A stage whose normalization found no structured value. *)
Definition stage_failed {M : Type} (output : Crew.TaskOutput M) : bool :=
  match output with
  | Crew.OutputPydantic _ => false
  | Crew.OutputRaw _ => true
  | Crew.OutputNone => true
  end.

(** Failure policy: every failed stage gets its fallback, and a run in
    which some stage did not fail is reported as a success. *)
Definition degrade_and_continue
  (solution_output : Crew.TaskOutput Tasks.SolutionApproaches)
  (criteria_output : Crew.TaskOutput Tasks.SolutionCriteria)
  (problem_description language : string) : Prop :=
  let solution_result :=
    Crew.solve_leetcode_problem
      (Scenario.crew_yielding
         (Crew.KickoffDone solution_output criteria_output))
      problem_description language in
  (stage_failed solution_output = true ->
   Crew.approaches solution_result = [Crew.fallback_approach])
  /\ (stage_failed criteria_output = true ->
      Crew.criteria solution_result = [Crew.fallback_criterion])
  /\ (stage_failed solution_output && stage_failed criteria_output = false ->
      exists result,
        aggregate problem_description language solution_result
        = inl (ResultDict result)
        /\ Result.status result = "success").

(** Cap enforcement: more than 2 approaches are cut to the 2 of lowest
    rank, more than 5 criteria to the first 5. *)
Definition caps_enforced (approaches : list Tasks.SolutionApproach)
  (criteria : list Tasks.Criteria) (problem_description language : string)
  : Prop :=
  forall result,
    aggregate problem_description language
      (Crew.solve_leetcode_problem
         (Scenario.crew_yielding
            (Crew.KickoffDone (Scenario.approaches_output approaches)
               (Scenario.criteria_output criteria)))
         problem_description language)
    = inl (ResultDict result) ->
    ((2 < List.length approaches)%nat ->
     Result.approaches result
     = map approach_response (firstn 2 (Py.sorted Tasks.rank approaches)))
    /\ ((5 < List.length criteria)%nat ->
        Result.solution_criteria result
        = Some (map criterion_dict (firstn 5 criteria))).

(** Unique criterion ids: the ids of the response's criteria are
    pairwise distinct. *)
Definition unique_criterion_ids (c : Crew.LeetCodeCrew)
  (problem_description language : string) : Prop :=
  forall result criteria,
    aggregate problem_description language
      (Crew.solve_leetcode_problem c problem_description language)
    = inl (ResultDict result) ->
    Result.solution_criteria result = Some criteria ->
    NoDup (map Criterion.id criteria).

(** Embedded-JSON recovery, for the string-list contract: the criteria of
    the response are the two strings of the embedded array. *)
Definition embedded_json_recovered (response : TestNewApi.CriteriaResponse)
  : Prop :=
  TestNewApi.criteria response = ["a"; "b"].

(** *** Properties the code has *)

(** The language of a request, in the words of the specification: the
    first non-empty field in priority order, else the default. *)
Definition language_by_priority (request : Request.t) : string :=
  match Request.programmingLanguage request with
  | Some (String c s) => String c s
  | _ =>
      match Request.programLanguage request with
      | Some (String c s) => String c s
      | _ =>
          match Request.language request with
          | Some (String c s) => String c s
          | _ => "python"
          end
      end
  end.

(** Field-by-field agreement of a response entry with a contract record. *)
Definition same_fields (a : Tasks.SolutionApproach) (r : ApproachResponse.t)
  : Prop :=
  ApproachResponse.title r = Tasks.title a
  /\ ApproachResponse.content r = Tasks.content a
  /\ ApproachResponse.rank r = Tasks.rank a
  /\ ApproachResponse.time_complexity r = Tasks.time_complexity a
  /\ ApproachResponse.space_complexity r = Tasks.space_complexity a
  /\ ApproachResponse.code r = Tasks.code a
  /\ ApproachResponse.edge_cases r = Tasks.edge_cases a
  /\ ApproachResponse.test_examples r = Tasks.test_examples a.

(** The response's approaches are in rank order, and for every rank the
    entries of that rank appear in the order the generator gave them. *)
Definition ranked_stably (parsed : list Tasks.SolutionApproach)
  (result : Result.t) : Prop :=
  StronglySorted (Py.key_le ApproachResponse.rank) (Result.approaches result)
  /\ Permutation (map approach_response parsed) (Result.approaches result)
  /\ forall k : Z,
       filter (Py.has_key ApproachResponse.rank k) (Result.approaches result)
       = map approach_response (filter (Py.has_key Tasks.rank k) parsed).

(** The two records, lower rank first (the given order on a tie). *)
Definition in_rank_order (a1 a2 : Tasks.SolutionApproach)
  : list Tasks.SolutionApproach :=
  if (Tasks.rank a1 <=? Tasks.rank a2)%Z then [a1; a2] else [a2; a1].

(** Round trip of a well-formed pair: the coordinator and the response
    carry exactly the two records, every field as given, and the run is
    reported as a success with no error text from the approaches stage. *)
Definition round_trip (a1 a2 : Tasks.SolutionApproach)
  (problem_description language : string)
  (solution_result : Crew.SolutionResult) : Prop :=
  Crew.approaches solution_result = in_rank_order a1 a2
  /\ Crew.status solution_result = "success"
  /\ Crew.error
       (Crew.parse_approaches (Scenario.approaches_output [a1; a2])
          Crew.new_result) = ""
  /\ exists result,
       aggregate problem_description language solution_result
       = inl (ResultDict result)
       /\ Result.status result = "success"
       /\ Result.solutions result = in_rank_order a1 a2
       /\ Forall2 same_fields (in_rank_order a1 a2) (Result.approaches result)
       /\ Result.approach_count result = 2%Z.

(** The introduction is built from the first entry of least rank: its
    title, a separator, at most 200 leading characters of its content,
    and an ellipsis. *)
Definition introduction_from_best (result : Result.t) : Prop :=
  exists best,
    Py.min ApproachResponse.rank (Result.approaches result) = Some best
    /\ In best (Result.approaches result)
    /\ Forall (Py.key_le ApproachResponse.rank best) (Result.approaches result)
    /\ (Exists (fun a => ApproachResponse.rank a = 1%Z)
          (Result.approaches result) ->
        Forall (fun a => (1 <= ApproachResponse.rank a)%Z)
          (Result.approaches result) ->
        ApproachResponse.rank best = 1%Z)
    /\ Result.introduction result
       = (ApproachResponse.title best ++ " - "
            ++ Py.take 200 (ApproachResponse.content best) ++ "...")%string
    /\ String.prefix (Py.take 200 (ApproachResponse.content best))
         (ApproachResponse.content best) = true
    /\ (String.length (Py.take 200 (ApproachResponse.content best)) <= 200)%nat.

(** What a run that passed validation ends in: a raised crew run gives
    an HTTP 500; otherwise a stage without structured output (stage 1) or
    without any output (stage 2) contributes its one fallback record, an
    empty approaches list gives the error dict, and a non-empty one gives
    the result dict with as many approaches and the coordinator's
    criteria. *)
Definition response_or_error (c : Crew.LeetCodeCrew)
  (problem_description language : string) : Prop :=
  let solution_result :=
    Crew.solve_leetcode_problem c problem_description language in
  let reply := aggregate problem_description language solution_result in
  (forall e, Crew.kickoff c problem_description language = Crew.KickoffRaised e ->
     reply = inr {| status_code := 500;
                    detail := "Error in LeetCodeCrew: " ++ e |})
  /\ (forall o1 o2,
        Crew.kickoff c problem_description language = Crew.KickoffDone o1 o2 ->
        (stage_failed o1 = true ->
         Crew.approaches solution_result = [Crew.fallback_approach])
        /\ (o2 = Crew.OutputNone ->
            Crew.criteria solution_result = [Crew.fallback_criterion])
        /\ (Crew.approaches solution_result = [] ->
            reply = inl (ErrorDict "error" no_approaches_message))
        /\ (Crew.approaches solution_result <> [] ->
            exists result,
              reply = inl (ResultDict result)
              /\ Result.approaches result
                 = map approach_response (Crew.approaches solution_result)
              /\ Result.approaches result <> []
              /\ Result.solution_criteria result
                 = Some (map criterion_dict (Crew.criteria solution_result))
              /\ (Crew.criteria solution_result <> [] ->
                  map criterion_dict (Crew.criteria solution_result) <> []))).

(** The failure policy the coordinator and the endpoint follow. *)
Definition fallbacks_and_status (c : Crew.LeetCodeCrew)
  (problem_description language : string) : Prop :=
  let solution_result :=
    Crew.solve_leetcode_problem c problem_description language in
  let reply := aggregate problem_description language solution_result in
  (forall o1 o2,
     Crew.kickoff c problem_description language = Crew.KickoffDone o1 o2 ->
     Crew.status solution_result = "success"
     /\ (stage_failed o1 = true ->
         Crew.approaches solution_result = [Crew.fallback_approach])
     /\ (o2 = Crew.OutputNone ->
         Crew.criteria solution_result = [Crew.fallback_criterion])
     /\ (forall parsed, o2 = Crew.OutputPydantic parsed ->
         Crew.criteria solution_result = Tasks.criteria parsed)
     /\ (Crew.approaches solution_result <> [] ->
         exists result,
           reply = inl (ResultDict result) /\ Result.status result = "success")
     /\ (Crew.approaches solution_result = [] ->
         reply = inl (ErrorDict "error" no_approaches_message)))
  /\ (Crew.status solution_result = "error"
      <-> exists e,
            Crew.kickoff c problem_description language = Crew.KickoffRaised e)
  /\ (Crew.status solution_result = "error" ->
      reply = inr {| status_code := 500;
                     detail := Crew.error solution_result |}).

(** No cap: the response carries every approach, in rank order, and every
    criterion, in the generator's order. *)
Definition exposed_whole (approaches : list Tasks.SolutionApproach)
  (criteria : list Tasks.Criteria) (result : Result.t) : Prop :=
  Result.approaches result
  = map approach_response (Py.sorted Tasks.rank approaches)
  /\ List.length (Result.approaches result) = List.length approaches
  /\ Result.approach_count result = Z.of_nat (List.length approaches)
  /\ exists listed,
       Result.solution_criteria result = Some listed
       /\ List.length listed = List.length criteria
       /\ map Criterion.id listed = map Tasks.id criteria
       /\ map Criterion.description listed = map Tasks.description criteria.

(** The ids of the response's criteria are the generator's ids, one for
    one and in order, so they are distinct exactly when the generator's
    are. *)
Definition ids_passed_through (criteria : list Tasks.Criteria)
  (result : Result.t) : Prop :=
  exists listed,
    Result.solution_criteria result = Some listed
    /\ map Criterion.id listed = map Tasks.id criteria
    /\ (NoDup (map Criterion.id listed) <-> NoDup (map Tasks.id criteria)).

(** The language handed to the crew and echoed by a result dict. *)
Definition language_chosen_and_echoed
  (LeetCodeCrew : string -> Crew.LeetCodeCrew) (request : Request.t)
  (p : Process) : Prop :=
  let chosen := language_by_priority request in
  let outcome := generate_leetcode_solution LeetCodeCrew request p in
  request_language request = chosen
  /\ language_by_priority (check_language_field request) = chosen
  /\ (solve_calls (snd outcome) = solve_calls p
      \/ solve_calls (snd outcome)
         = (Request.content request, chosen) :: solve_calls p)
  /\ (forall result,
        fst outcome = inl (ResultDict result) ->
        Result.language result = chosen
        /\ solve_calls (snd outcome)
           = (Request.content request, chosen) :: solve_calls p).

End Spec.

(** ** [test_new/crew.py] and the [/analyze] endpoint of [test_new/api.py] *)

Module TestNewCrew.

(** The outcome of lines 27-47 of [CodingCrewManager.analyze_problem]
    (task creation and [crew.kickoff()]): an exception with its message,
    or the first task's output ([None] when there is none, else its text)
    together with the text of the crew's result. *)
Inductive Kickoff : Type :=
| KickoffRaised (message : string)
| KickoffDone (solution_output : option string) (result : string).

(** The agents with the generation runtime behind them: what running the
    two tasks built from [problem_text] and [technology] yields. *)
Record CodingCrewManager : Type := {
  kickoff : string -> string -> Kickoff
}.

(** [CodingCrewManager.analyze_problem]: the returned dict, or the
    message of the exception that escapes. *)
Definition analyze_problem (self : CodingCrewManager)
  (problem_text technology : string) : TestNewApi.CrewResult + string :=
  match kickoff self problem_text technology with
  | KickoffRaised e => inr e
  | KickoffDone solution_output result =>
      let solution_output :=
        match solution_output with
        | Some text => text
        | None => "No solution generated"
        end in
      inl (TestNewApi.Dict solution_output result)
  end.

End TestNewCrew.

Module TestNewEndpoint.

(** [class ProblemRequest(BaseModel)] *)
Record ProblemRequest : Type := {
  problem : string;
  technology : option string
}.

Section Endpoint.
Variable JSON : Type.
Variable json_truthy : JSON -> bool.
Variable json_str : JSON -> string.
Variable json_loads : string -> option (list JSON).

(** The module-level [crew_manager]. *)
Variable crew_manager : TestNewCrew.CodingCrewManager.

(** [analyze_problem] of [test_new/api.py], lines 53-151: the returned
    dict, or the [HTTPException] of lines 148-151. *)
Definition analyze_problem (request : ProblemRequest)
  : TestNewApi.CriteriaResponse + Api.HTTPException :=
  match TestNewCrew.analyze_problem crew_manager (problem request)
          (match technology request with
           | Some t => Py.or_else t ""
           | None => ""
           end) with
  | inl result =>
      inl (TestNewApi.respond JSON json_truthy json_str json_loads result)
  | inr e =>
      inr {| Api.status_code := 500;
             Api.detail := "Error analyzing problem: " ++ e |}
  end.

End Endpoint.

End TestNewEndpoint.

(** ** [algorithm_visualizer_service.py] *)

Module Visualizer.

(** The value under the key [analysis] of the client's answer: a dict of
    which the service reads [algorithm_name], [algorithm_type] and
    [key_steps] (a name is a string, the steps a list of strings); the
    names of its other keys are kept, since an empty dict is falsy. *)
Record AlgorithmAnalysis : Type := {
  algorithm_name : option string;
  algorithm_type : option string;
  key_steps : option (list string);
  other_keys : list string
}.

(** The empty dict. *)
Definition empty_analysis : AlgorithmAnalysis :=
  {| algorithm_name := None; algorithm_type := None; key_steps := None;
     other_keys := [] |}.

(** [bool(d)] for such a dict. *)
Definition dict_truthy (d : AlgorithmAnalysis) : bool :=
  match algorithm_name d, algorithm_type d, key_steps d, other_keys d with
  | None, None, None, [] => false
  | _, _, _, _ => true
  end.

(** What [ClaudeClient.analyze_algorithm] returns, as the service probes
    it: a dict with or without the keys [error] and [analysis]. *)
Record Analysis : Type := {
  error_key : option string;
  analysis_key : option AlgorithmAnalysis
}.

(** One entry of [steps]. *)
Record Step : Type := {
  step_id : Z;
  active_nodes : list string;
  description : string
}.

(** A diagram specification.  [mermaid_lines] is the list [mermaid_def]
    before it is joined; the dict holds [mermaid_definition]. *)
Record Diagram : Type := {
  diagram_type : string;
  mermaid_lines : list string;
  steps : list Step
}.

Definition mermaid_definition (d : Diagram) : string :=
  Py.join (String Py.newline EmptyString) (mermaid_lines d).

Definition q : string := String Py.dquote EmptyString.

(** The escaping of lines 107 and 141: every double quote becomes a
    single quote. *)
Definition escape_quotes (text : string) : string :=
  Py.replace_char Py.dquote "'"%char text.

(** [_generate_error_diagram] *)
Definition _generate_error_diagram (error_message : string) : Diagram :=
  {| diagram_type := "mermaid";
     mermaid_lines :=
       [ "flowchart TD";
         ("    error[" ++ q ++ "Error Occurred" ++ q ++ "]")%string;
         ("    details[" ++ q ++ escape_quotes error_message ++ q ++ "]")%string;
         "    error --> details";
         "    classDef default fill:#f9d6d6,stroke:#a33,stroke-width:1px" ];
     steps :=
       [ {| step_id := 1;
            active_nodes := ["error"; "details"];
            description := "Error occurred during processing" |} ] |}.

(** [f"step{n}"] *)
Definition node (n : nat) : string := "step" ++ Py.str_of_nat n.

(** Lines 105-115: what the loop appends for the steps from index [i]
    on. *)
Fixpoint step_lines (i : nat) (key_steps : list string) : list string :=
  match key_steps with
  | [] => []
  | step :: rest =>
      let node_id := node (i + 1) in
      let step_text := escape_quotes step in
      ("    " ++ node_id ++ "[" ++ q ++ step_text ++ q ++ "]")%string
        :: (if (0 <? i)%nat
            then "    " ++ node i ++ " --> " ++ node_id
            else "    title --> " ++ node_id)%string
        :: step_lines (S i) rest
  end.

(** Lines 121-128: the animation steps. *)
Definition animation_steps (key_steps : list string) : list Step :=
  map (fun i =>
         {| step_id := Z.of_nat i + 1;
            active_nodes := map (fun j => node (j + 1)) (seq 0 (i + 1));
            description := nth i key_steps "" |})
    (seq 0 (List.length (Py.list_take 5 key_steps))).

Definition no_analysis_message : string :=
  "No analysis available to generate diagram from".

(** [_generate_diagram_from_analysis]: the diagram, or the message of the
    [ValueError] of line 92. *)
Definition _generate_diagram_from_analysis (analysis : Analysis)
  : Diagram + string :=
  match analysis_key analysis with
  | None => inr no_analysis_message
  | Some algorithm_analysis =>
      if negb (dict_truthy algorithm_analysis)
      then inr no_analysis_message
      else
        let algorithm_name :=
          match algorithm_name algorithm_analysis with
          | Some name => name
          | None => "Unknown Algorithm"
          end in
        let key_steps :=
          match key_steps algorithm_analysis with
          | Some l => l
          | None => []
          end in
        inl {| diagram_type := "mermaid";
               mermaid_lines :=
                 [ "flowchart TD";
                   ("    title[" ++ q ++ algorithm_name ++ q ++ "]")%string ]
                 ++ step_lines 0 (Py.list_take 5 key_steps)
                 ++ [ ("    classDef default "
                         ++ "fill:#f9f9f9,stroke:#333,stroke-width:1px")%string ];
               steps := animation_steps key_steps |}
  end.

(** The dict returned by [generate_visualization]; an absent key is
    [None].  [performance] holds [elapsedTimeSeconds], the constant
    zero. *)
Record Visualization : Type := {
  status : string;
  error : option string;
  algorithm_analysis : option AlgorithmAnalysis;
  diagram_specification : Diagram;
  performance : option Z
}.

(** [analysis.get("analysis", {})] *)
Definition get_analysis (analysis : Analysis) : AlgorithmAnalysis :=
  match analysis_key analysis with
  | Some d => d
  | None => empty_analysis
  end.

(** Lines 49-73 of [generate_visualization], once the client has
    answered. *)
Definition visualize (analysis : Analysis) : Visualization :=
  match error_key analysis with
  | Some e =>
      {| status := "error";
         error := Some e;
         algorithm_analysis := None;
         diagram_specification := _generate_error_diagram e;
         performance := None |}
  | None =>
      match _generate_diagram_from_analysis analysis with
      | inl diagram_spec =>
          {| status := "success";
             error := None;
             algorithm_analysis := Some (get_analysis analysis);
             diagram_specification := diagram_spec;
             performance := Some 0%Z |}
      | inr e =>
          {| status := "error";
             error := Some e;
             algorithm_analysis := Some (get_analysis analysis);
             diagram_specification := _generate_error_diagram e;
             performance := None |}
      end
  end.

Section Service.

(** [self.claude_client.analyze_algorithm]: the dict it returns, or the
    message of an exception it raises. *)
Variable analyze_algorithm : string -> option string -> Analysis + string.

(** [AlgorithmVisualizerService.generate_visualization]; an exception of
    the client is not caught. *)
Definition generate_visualization (code : string)
  (problem_description : option string) : Visualization + string :=
  match analyze_algorithm code problem_description with
  | inl analysis => inl (visualize analysis)
  | inr e => inr e
  end.

End Service.

End Visualizer.

(** ** Further runs and predicates, for the properties beyond the claims *)

Module Sample.

(** A process whose environment has no key and whose crew is unset. *)
Definition keyless_process : Api.Process :=
  {| Api.OPENAI_API_KEY := None;
     Api.crew := None;
     Api.solve_calls := [] |}.

(** The second stage returns text that did not convert to the model. *)
Definition unconverted_criteria_crew : Crew.LeetCodeCrew :=
  Scenario.crew_yielding
    (Crew.KickoffDone (Scenario.approaches_output [Scenario.hash_map])
       (Crew.OutputRaw "1. uses a hash map")).

(** Two approaches, neither with code. *)
Definition codeless_crew : Crew.LeetCodeCrew :=
  Scenario.crew_yielding
    (Crew.KickoffDone
       (Scenario.approaches_output
          [Scenario.brute_force; Scenario.two_pointers])
       (Scenario.criteria_output [Scenario.uses_hash_map])).

(** A crew manager whose second agent answers with a two-line list. *)
Definition two_line_text : string :=
  "Uses a hash map" ++ String Py.newline "Returns early".

Definition two_line_manager : TestNewCrew.CodingCrewManager :=
  {| TestNewCrew.kickoff :=
       fun _ _ => TestNewCrew.KickoffDone (Some "def two_sum(): ...")
                    two_line_text |}.

Definition two_sum_problem : TestNewEndpoint.ProblemRequest :=
  {| TestNewEndpoint.problem := Scenario.two_sum_text;
     TestNewEndpoint.technology := Some "python" |}.

(** An analysis of binary search with seven key steps. *)
Definition binary_search_analysis : Visualizer.Analysis :=
  {| Visualizer.error_key := None;
     Visualizer.analysis_key :=
       Some {| Visualizer.algorithm_name := Some "Binary Search";
               Visualizer.algorithm_type := Some "search";
               Visualizer.key_steps :=
                 Some ["Set low and high"; "Pick the middle";
                       "Compare with the target"; "Drop the left half";
                       "Drop the right half"; "Repeat"; "Report"];
               Visualizer.other_keys := ["time_complexity"] |} |}.

End Sample.

Module Extra.

(** Every character of [s] is a whitespace character. *)
Definition whitespace (s : string) : bool :=
  forallb Py.isspace (list_ascii_of_string s).

(** The language of a recorded crew call is not the empty string. *)
Definition call_has_language (call : string * string) : Prop :=
  Py.truthy (snd call) = true.

(** The detail of the exception raised by [get_leetcode_crew]. *)
Definition key_not_found_message : string :=
  "OpenAI API key not found. Please set the "
    ++ "OPENAI_API_KEY environment variable.".

(** The process [p] with another key and another call record, its crew
    attribute kept. *)
Definition later_process (p : Api.Process) (key : option string)
  (calls : list (string * string)) : Api.Process :=
  {| Api.OPENAI_API_KEY := key;
     Api.crew := Api.crew p;
     Api.solve_calls := calls |}.

(** A crew is at hand: the attribute is set, or the key allows building
    one. *)
Definition crew_available (p : Api.Process) : bool :=
  match Api.crew p with
  | Some _ => true
  | None => Py.truthy_opt (Api.OPENAI_API_KEY p)
  end.

(** What every result dict satisfies, whatever the crew returned. *)
Definition well_formed_result (problem_description : string)
  (solution_result : Crew.SolutionResult) (result : Api.Result.t) : Prop :=
  Api.Result.status result = "success"
  /\ Api.Result.leetcode_problem result = problem_description
  /\ Api.Result.solutions result = Crew.approaches solution_result
  /\ Forall2 Spec.same_fields (Api.Result.solutions result)
       (Api.Result.approaches result)
  /\ Api.Result.approach_count result
     = Z.of_nat (List.length (Api.Result.approaches result))
  /\ (1 <= Api.Result.approach_count result)%Z
  /\ String.prefix "## Approach 1: " (Api.Result.full_text result) = true.

(** The criteria of a result dict are the coordinator's, as given. *)
Definition criteria_as_given (solution_result : Crew.SolutionResult)
  (result : Api.Result.t) : Prop :=
  exists listed,
    Api.Result.solution_criteria result = Some listed
    /\ map Api.Criterion.id listed
       = map Tasks.id (Crew.criteria solution_result)
    /\ map Api.Criterion.description listed
       = map Tasks.description (Crew.criteria solution_result)
    /\ Forall (fun criterion => Api.Criterion.pattern criterion = "") listed
    /\ (listed = [] <-> Crew.criteria solution_result = []).

(** The length and, for a short content, the text of the introduction. *)
Definition introduction_sized (result : Api.Result.t) : Prop :=
  exists best,
    Py.min Api.ApproachResponse.rank (Api.Result.approaches result) = Some best
    /\ String.length (Api.Result.introduction result)
       = (String.length (Api.ApproachResponse.title best) + 6
          + Nat.min 200 (String.length (Api.ApproachResponse.content best)))%nat
    /\ ((String.length (Api.ApproachResponse.content best) <= 200)%nat ->
        Api.Result.introduction result
        = (Api.ApproachResponse.title best ++ " - "
             ++ Api.ApproachResponse.content best ++ "...")%string).

(** Two result dicts that differ at most in the echoed language. *)
Definition same_but_language (r1 r2 : Api.Result.t) : Prop :=
  Api.Result.leetcode_problem r1 = Api.Result.leetcode_problem r2
  /\ Api.Result.approaches r1 = Api.Result.approaches r2
  /\ Api.Result.solution_criteria r1 = Api.Result.solution_criteria r2
  /\ Api.Result.status r1 = Api.Result.status r2
  /\ Api.Result.solutions r1 = Api.Result.solutions r2
  /\ Api.Result.introduction r1 = Api.Result.introduction r2
  /\ Api.Result.full_text r1 = Api.Result.full_text r2
  /\ Api.Result.approach_count r1 = Api.Result.approach_count r2.

(** What every answer of the coordinator satisfies. *)
Definition coordinator_answer (c : Crew.LeetCodeCrew)
  (problem_description language : string) : Prop :=
  let solution_result :=
    Crew.solve_leetcode_problem c problem_description language in
  (Crew.status solution_result = "success"
   \/ Crew.status solution_result = "error")
  /\ StronglySorted (Py.key_le Tasks.rank) (Crew.approaches solution_result)
  /\ (Crew.status solution_result = "error" ->
      Crew.approaches solution_result = []
      /\ Crew.criteria solution_result = []
      /\ String.prefix "Error in LeetCodeCrew: " (Crew.error solution_result)
         = true)
  /\ (Crew.error solution_result = ""
      <-> exists o1 o2,
            Crew.kickoff c problem_description language
            = Crew.KickoffDone o1 o2
            /\ forall raw, o2 <> Crew.OutputRaw raw)
  /\ (Crew.approaches solution_result = []
      <-> (exists e,
             Crew.kickoff c problem_description language
             = Crew.KickoffRaised e)
          \/ exists o2,
               Crew.kickoff c problem_description language
               = Crew.KickoffDone (Scenario.approaches_output []) o2).

(** The technology handed to the crew manager by the [/analyze]
    endpoint: [request.technology or ""]. *)
Definition technology_of (request : TestNewEndpoint.ProblemRequest)
  : string :=
  match TestNewEndpoint.technology request with
  | Some t => Py.or_else t ""
  | None => ""
  end.

(** A string that neither starts nor ends with a double quote. *)
Definition unquoted (s : string) : Prop :=
  Py.strip_chars (String Py.dquote EmptyString) s = s.



(** No character of [s] is a double quote. *)
Definition quote_free (s : string) : Prop :=
  ~ In Py.dquote (list_ascii_of_string s).

(** What a visualization built from [analysis] looks like. *)
Definition visualization_outcome (analysis : Visualizer.Analysis)
  (v : Visualizer.Visualization) : Prop :=
  (Visualizer.status v = "success" \/ Visualizer.status v = "error")
  /\ (Visualizer.status v = "success"
      <-> Visualizer.error_key analysis = None
          /\ Visualizer.dict_truthy (Visualizer.get_analysis analysis) = true)
  /\ (Visualizer.status v = "success" ->
      Visualizer.error v = None
      /\ Visualizer.performance v = Some 0%Z
      /\ Visualizer.algorithm_analysis v
         = Some (Visualizer.get_analysis analysis)
      /\ Visualizer._generate_diagram_from_analysis analysis
         = inl (Visualizer.diagram_specification v))
  /\ (Visualizer.status v = "error" ->
      exists e,
        Visualizer.error v = Some e
        /\ Visualizer.diagram_specification v
           = Visualizer._generate_error_diagram e
        /\ Visualizer.performance v = None
        /\ (Visualizer.error_key analysis = Some e
            \/ (Visualizer.error_key analysis = None
                /\ e = Visualizer.no_analysis_message)))
  /\ (forall e, Visualizer.error_key analysis = Some e ->
      Visualizer.error v = Some e
      /\ Visualizer.algorithm_analysis v = None).

End Extra.

(** * Properties *)

(** ** The built-ins *)

Section SortedFacts.
Context {A : Type}.
Variable key : A -> Z.

Local Abbreviation key_le := (Py.key_le key).
Local Abbreviation has_key := (Py.has_key key).

Lemma insert_by_perm (x : A) (l : list A) :
  Permutation (x :: l) (Py.insert_by key x l).
Proof.
  induction l as [| y l IH]; simpl.
  - apply Permutation_refl.
  - destruct (key x <=? key y)%Z.
    + apply Permutation_refl.
    + eapply Permutation_trans; [apply perm_swap |].
      now apply perm_skip.
Qed.

Lemma sorted_perm (l : list A) : Permutation l (Py.sorted key l).
Proof.
  induction l as [| x l IH]; simpl.
  - constructor.
  - eapply Permutation_trans; [| apply insert_by_perm].
    now apply perm_skip.
Qed.

Lemma sorted_length (l : list A) :
  List.length (Py.sorted key l) = List.length l.
Proof. symmetry. apply Permutation_length, sorted_perm. Qed.

Lemma insert_by_ordered (x : A) (l : list A) :
  StronglySorted key_le l -> StronglySorted key_le (Py.insert_by key x l).
Proof.
  induction 1 as [| y l Hl IH Hy]; simpl.
  - repeat constructor.
  - destruct (key x <=? key y)%Z eqn:E.
    + apply Z.leb_le in E.
      constructor; [now constructor |].
      constructor; [exact E |].
      eapply Forall_impl; [| exact Hy].
      intros a Ha. unfold Py.key_le in *. lia.
    + apply Z.leb_gt in E.
      constructor; [exact IH |].
      eapply Permutation_Forall; [apply insert_by_perm |].
      constructor; [unfold Py.key_le; lia | exact Hy].
Qed.

Lemma sorted_ordered (l : list A) : StronglySorted key_le (Py.sorted key l).
Proof.
  induction l as [| x l IH]; simpl.
  - constructor.
  - now apply insert_by_ordered.
Qed.

Lemma insert_by_filter (k : Z) (x : A) (l : list A) :
  filter (has_key k) (Py.insert_by key x l) = filter (has_key k) (x :: l).
Proof.
  induction l as [| y l IH]; [reflexivity |].
  cbn [Py.insert_by].
  destruct (key x <=? key y)%Z eqn:E; [reflexivity |].
  apply Z.leb_gt in E.
  cbn [filter] in *. rewrite IH. unfold Py.has_key.
  destruct (key y =? k)%Z eqn:Ey; [| reflexivity].
  destruct (key x =? k)%Z eqn:Ex; [| reflexivity].
  apply Z.eqb_eq in Ex, Ey. lia.
Qed.

Lemma sorted_filter (k : Z) (l : list A) :
  filter (has_key k) (Py.sorted key l) = filter (has_key k) l.
Proof.
  induction l as [| x l IH]; [reflexivity |].
  cbn [Py.sorted]. rewrite insert_by_filter.
  cbn [filter]. now rewrite IH.
Qed.

Lemma sorted_nil_iff (l : list A) : Py.sorted key l = [] <-> l = [].
Proof.
  split; intros H.
  - apply length_zero_iff_nil. rewrite <- sorted_length, H. reflexivity.
  - now subst.
Qed.

Lemma min_from_in (best : A) (l : list A) :
  In (Py.min_from key best l) (best :: l).
Proof.
  revert best. induction l as [| x l IH]; intros best; simpl.
  - now left.
  - destruct (key x <? key best)%Z.
    + right. apply IH.
    + destruct (IH best) as [H | H]; [now left | now right; right].
Qed.

Lemma min_from_least (best : A) (l : list A) (a : A) :
  In a (best :: l) -> (key (Py.min_from key best l) <= key a)%Z.
Proof.
  revert best a. induction l as [| x l IH]; intros best a Ha; simpl.
  - destruct Ha as [<- | []]. lia.
  - destruct (key x <? key best)%Z eqn:E.
    + apply Z.ltb_lt in E.
      destruct Ha as [<- | [<- | Ha]].
      * specialize (IH x x (or_introl eq_refl)). lia.
      * apply IH. now left.
      * apply IH. now right.
    + apply Z.ltb_ge in E.
      destruct Ha as [<- | [<- | Ha]].
      * apply IH. now left.
      * specialize (IH best best (or_introl eq_refl)). lia.
      * apply IH. now right.
Qed.

(** On a list already in key order, [min] is the head. *)
Lemma min_from_ordered (best : A) (l : list A) :
  Forall (key_le best) l -> Py.min_from key best l = best.
Proof.
  induction 1 as [| x l Hx Hl IH]; simpl; [reflexivity |].
  unfold Py.key_le in Hx.
  destruct (key x <? key best)%Z eqn:E; [apply Z.ltb_lt in E; lia | exact IH].
Qed.

End SortedFacts.

Lemma take_is_prefix (n : nat) (s : string) :
  String.prefix (Py.take n s) s = true.
Proof.
  unfold Py.take. revert s.
  induction n as [| n IH]; intros [| c s]; simpl; try reflexivity.
  rewrite IH. now destruct (ascii_dec c c).
Qed.

Lemma take_length (n : nat) (s : string) :
  (String.length (Py.take n s) <= n)%nat.
Proof.
  unfold Py.take. revert s.
  induction n as [| n IH]; intros [| c s]; simpl; try lia.
  specialize (IH s). lia.
Qed.

(** ** The coordinator *)

Import Api.

Lemma solve_when_done (c : Crew.LeetCodeCrew) (pd lang : string)
  (o1 : Crew.TaskOutput Tasks.SolutionApproaches)
  (o2 : Crew.TaskOutput Tasks.SolutionCriteria) :
  Crew.kickoff c pd lang = Crew.KickoffDone o1 o2 ->
  Crew.solve_leetcode_problem c pd lang
  = Crew.parse_criteria o2 (Crew.parse_approaches o1 Crew.new_result).
Proof. unfold Crew.solve_leetcode_problem. now intros ->. Qed.

Lemma solve_when_raised (c : Crew.LeetCodeCrew) (pd lang e : string) :
  Crew.kickoff c pd lang = Crew.KickoffRaised e ->
  Crew.solve_leetcode_problem c pd lang
  = {| Crew.approaches := []; Crew.criteria := []; Crew.status := "error";
       Crew.error := "Error in LeetCodeCrew: " ++ e |}.
Proof. unfold Crew.solve_leetcode_problem. now intros ->. Qed.

Lemma parsed_status (o1 : Crew.TaskOutput Tasks.SolutionApproaches)
  (o2 : Crew.TaskOutput Tasks.SolutionCriteria) :
  Crew.status (Crew.parse_criteria o2 (Crew.parse_approaches o1 Crew.new_result))
  = "success".
Proof. now destruct o1, o2. Qed.

Lemma parsed_approaches (o1 : Crew.TaskOutput Tasks.SolutionApproaches)
  (o2 : Crew.TaskOutput Tasks.SolutionCriteria) :
  Crew.approaches
    (Crew.parse_criteria o2 (Crew.parse_approaches o1 Crew.new_result))
  = match o1 with
    | Crew.OutputPydantic parsed => Py.sorted Tasks.rank (Tasks.approaches parsed)
    | _ => [Crew.fallback_approach]
    end.
Proof. now destruct o1, o2. Qed.

Lemma parsed_criteria (o1 : Crew.TaskOutput Tasks.SolutionApproaches)
  (o2 : Crew.TaskOutput Tasks.SolutionCriteria) :
  Crew.criteria
    (Crew.parse_criteria o2 (Crew.parse_approaches o1 Crew.new_result))
  = match o2 with
    | Crew.OutputPydantic parsed => Tasks.criteria parsed
    | Crew.OutputRaw _ => []
    | Crew.OutputNone => [Crew.fallback_criterion]
    end.
Proof. now destruct o1, o2. Qed.

(** ** The aggregator *)

Lemma aggregate_raises (pd lang : string) (sr : Crew.SolutionResult) :
  Crew.status sr = "error" ->
  aggregate pd lang sr
  = inr {| status_code := 500; detail := Crew.error sr |}.
Proof. unfold aggregate. now intros ->. Qed.

Lemma aggregate_without_approaches (pd lang : string)
  (sr : Crew.SolutionResult) :
  Crew.status sr = "success" ->
  Crew.approaches sr = [] ->
  aggregate pd lang sr = inl (ErrorDict "error" no_approaches_message).
Proof. unfold aggregate. intros -> H. simpl. now rewrite H. Qed.

Lemma aggregate_with_approaches (pd lang : string)
  (sr : Crew.SolutionResult) :
  Crew.status sr = "success" ->
  Crew.approaches sr <> [] ->
  aggregate pd lang sr = inl (ResultDict (build_result pd lang sr)).
Proof.
  unfold aggregate. intros -> H. simpl.
  destruct (Crew.approaches sr); [congruence | reflexivity].
Qed.

Lemma aggregate_result_inv (pd lang : string) (sr : Crew.SolutionResult)
  (result : Result.t) :
  aggregate pd lang sr = inl (ResultDict result) ->
  result = build_result pd lang sr /\ Crew.approaches sr <> [].
Proof.
  unfold aggregate.
  destruct (String.eqb (Crew.status sr) "error"); [discriminate |].
  simpl. destruct (Crew.approaches sr) eqn:E; [discriminate |].
  intros H. inversion H. split; [| discriminate].
  unfold build_result. now rewrite E.
Qed.

Lemma approach_response_same_fields (a : Tasks.SolutionApproach) :
  Spec.same_fields a (approach_response a).
Proof. repeat split. Qed.

Lemma criterion_dict_id (criterion : Tasks.Criteria) :
  Criterion.id (criterion_dict criterion) = Tasks.id criterion.
Proof.
  unfold criterion_dict, Py.or_else. simpl.
  now destruct (Tasks.id criterion).
Qed.

Lemma criterion_dict_description (criterion : Tasks.Criteria) :
  Criterion.description (criterion_dict criterion)
  = Tasks.description criterion.
Proof.
  unfold criterion_dict, Py.or_else. simpl.
  now destruct (Tasks.description criterion).
Qed.

Lemma filter_rank_response (k : Z) (l : list Tasks.SolutionApproach) :
  filter (Py.has_key ApproachResponse.rank k) (map approach_response l)
  = map approach_response (filter (Py.has_key Tasks.rank k) l).
Proof.
  induction l as [| a l IH]; [reflexivity |].
  cbn [map filter]. rewrite IH.
  change (Py.has_key ApproachResponse.rank k (approach_response a))
    with (Py.has_key Tasks.rank k a).
  now destruct (Py.has_key Tasks.rank k a).
Qed.

Lemma ordered_response (l : list Tasks.SolutionApproach) :
  StronglySorted (Py.key_le Tasks.rank) l ->
  StronglySorted (Py.key_le ApproachResponse.rank) (map approach_response l).
Proof.
  induction 1 as [| a l Hl IH Ha]; simpl; constructor; [exact IH |].
  apply Forall_map. exact Ha.
Qed.

(** ** The endpoint *)

Section EndpointFacts.
Variable LeetCodeCrew : string -> Crew.LeetCodeCrew.

Lemma generate_rejects (request : Request.t) (p : Process) :
  too_short (Request.content request) = true ->
  generate_leetcode_solution LeetCodeCrew request p
  = (inl (ErrorDict "error" too_short_message), p).
Proof. unfold generate_leetcode_solution. now intros ->. Qed.

Lemma generate_runs (request : Request.t) (p p1 : Process)
  (c : Crew.LeetCodeCrew) :
  too_short (Request.content request) = false ->
  get_leetcode_crew LeetCodeCrew p = (inl c, p1) ->
  generate_leetcode_solution LeetCodeCrew request p
  = (aggregate (Request.content request) (request_language request)
       (Crew.solve_leetcode_problem c (Request.content request)
          (request_language request)),
     logged (Request.content request) (request_language request) p1).
Proof.
  unfold generate_leetcode_solution, bind. intros -> ->.
  unfold call_solve, lift, logged. reflexivity.
Qed.

Lemma generate_without_crew (request : Request.t) (p p1 : Process)
  (e : HTTPException) :
  too_short (Request.content request) = false ->
  get_leetcode_crew LeetCodeCrew p = (inr e, p1) ->
  generate_leetcode_solution LeetCodeCrew request p = (inr e, p1).
Proof. unfold generate_leetcode_solution, bind. now intros -> ->. Qed.

Lemma get_leetcode_crew_calls (p : Process) :
  solve_calls (snd (get_leetcode_crew LeetCodeCrew p)) = solve_calls p.
Proof.
  unfold get_leetcode_crew.
  destruct (crew p); [reflexivity |].
  now destruct (Py.truthy_opt (OPENAI_API_KEY p)).
Qed.

End EndpointFacts.

Lemma too_short_iff (s : string) :
  too_short s = true <-> s = "" \/ (Py.len (Py.strip s) < 10)%Z.
Proof.
  unfold too_short. rewrite orb_true_iff, Z.ltb_lt.
  destruct s; simpl; intuition congruence.
Qed.

Lemma first_truthy_priority (request : Request.t) :
  request_language request = Spec.language_by_priority request.
Proof.
  unfold request_language, Spec.language_by_priority. simpl.
  destruct (Request.programmingLanguage request) as [[| ? ?] |];
    destruct (Request.programLanguage request) as [[| ? ?] |];
    destruct (Request.language request) as [[| ? ?] |]; reflexivity.
Qed.

Lemma validated_priority (request : Request.t) :
  Spec.language_by_priority (check_language_field request)
  = Spec.language_by_priority request.
Proof.
  destruct request as [t c [[| ? ?] |] [[| ? ?] |] [[| ? ?] |]]; reflexivity.
Qed.

(** ** Input validation and language selection *)

(** C6.  A request whose problem text is empty, or whose stripped text is
    shorter than 10 characters, is answered with the dict of status
    ["error"] and a message.  The process state comes back unchanged: the
    crew is neither built nor called, so no generation stage runs, and
    the answer does not depend on the crew at all. *)
Theorem invalid_input_rejected_before_any_stage :
  forall (LeetCodeCrew : string -> Crew.LeetCodeCrew) (request : Request.t)
         (p : Process),
    Request.content request = ""
    \/ (Py.len (Py.strip (Request.content request)) < 10)%Z ->
    generate_leetcode_solution LeetCodeCrew request p
    = (inl (ErrorDict "error" too_short_message), p)
    /\ solve_calls (snd (generate_leetcode_solution LeetCodeCrew request p))
       = solve_calls p
    /\ forall other : string -> Crew.LeetCodeCrew,
         generate_leetcode_solution other request p
         = generate_leetcode_solution LeetCodeCrew request p.
Proof.
  intros L request p H. apply too_short_iff in H.
  rewrite (generate_rejects L request p H).
  repeat split. intros other. now apply generate_rejects.
Qed.

Lemma invalid_input_rejected_witness :
  (Py.len (Py.strip (Request.content Scenario.blank_request)) < 10)%Z
  /\ generate_leetcode_solution (fun _ => Scenario.three_approach_crew)
       Scenario.blank_request Scenario.fresh_process
     = (inl (ErrorDict "error" too_short_message), Scenario.fresh_process).
Proof.
  split; [reflexivity |].
  apply (invalid_input_rejected_before_any_stage
           (fun _ => Scenario.three_approach_crew)
           Scenario.blank_request Scenario.fresh_process).
  right. reflexivity.
Defined.

(** C10.  The language handed to the crew is the first non-empty one of
    [programmingLanguage], [programLanguage] and [language], in that
    order, and ["python"] when none is set; the validator's default does
    not change that choice.  Every call the endpoint makes to the crew
    carries this language, and every result dict echoes it in its
    [language] field. *)
Theorem language_selected_by_priority_and_echoed :
  forall (LeetCodeCrew : string -> Crew.LeetCodeCrew) (request : Request.t)
         (p : Process),
    Spec.language_chosen_and_echoed LeetCodeCrew request p.
Proof.
  intros L request p. unfold Spec.language_chosen_and_echoed. cbv zeta.
  split; [apply first_truthy_priority |].
  split; [apply validated_priority |].
  rewrite <- (first_truthy_priority request).
  destruct (too_short (Request.content request)) eqn:Hshort.
  - rewrite (generate_rejects L request p Hshort). simpl.
    split; [now left | discriminate].
  - destruct (get_leetcode_crew L p) as [[c | e] p1] eqn:Hcrew.
    + rewrite (generate_runs L request p p1 c Hshort Hcrew).
      pose proof (get_leetcode_crew_calls L p) as Hcalls.
      rewrite Hcrew in Hcalls. simpl in Hcalls. simpl. rewrite Hcalls.
      split; [now right |].
      intros result Hresult. split; [| reflexivity].
      apply aggregate_result_inv in Hresult. destruct Hresult as [-> _].
      reflexivity.
    + rewrite (generate_without_crew L request p p1 e Hshort Hcrew).
      pose proof (get_leetcode_crew_calls L p) as Hcalls.
      rewrite Hcrew in Hcalls. simpl in Hcalls. simpl.
      split; [now left | discriminate].
Qed.

Lemma language_selected_witness :
  Spec.language_by_priority Scenario.two_sum_request = "java"
  /\ exists result p',
       generate_leetcode_solution (fun _ => Scenario.three_approach_crew)
         Scenario.two_sum_request Scenario.fresh_process
       = (inl (ResultDict result), p')
       /\ Result.language result = "java"
       /\ solve_calls p' = [(Scenario.two_sum_text, "java")].
Proof.
  split; [reflexivity |].
  destruct (language_selected_by_priority_and_echoed
              (fun _ => Scenario.three_approach_crew)
              Scenario.two_sum_request Scenario.fresh_process)
    as (_ & _ & _ & H).
  eexists. eexists. split; [vm_compute; reflexivity |].
  apply H. vm_compute. reflexivity.
Defined.

(** ** Ordering, round trip and the introduction *)

(** C4.  When the first stage delivers a parsed list of approaches, the
    approaches of the response are sorted non-decreasing by rank and are
    a rearrangement of the parsed ones in which, rank by rank, the entries
    keep the order they were given in. *)
Theorem approaches_sorted_by_rank_stably :
  forall (c : Crew.LeetCodeCrew) (problem_description language : string)
         (parsed : Tasks.SolutionApproaches)
         (criteria_output : Crew.TaskOutput Tasks.SolutionCriteria)
         (result : Result.t),
    Crew.kickoff c problem_description language
    = Crew.KickoffDone (Crew.OutputPydantic parsed) criteria_output ->
    aggregate problem_description language
      (Crew.solve_leetcode_problem c problem_description language)
    = inl (ResultDict result) ->
    Spec.ranked_stably (Tasks.approaches parsed) result.
Proof.
  intros c pd lang parsed o2 result Hrun Hreply.
  rewrite (solve_when_done _ _ _ _ _ Hrun) in Hreply.
  apply aggregate_result_inv in Hreply. destruct Hreply as [-> _].
  unfold Spec.ranked_stably, build_result. cbn [Result.approaches].
  rewrite parsed_approaches.
  split; [apply ordered_response, sorted_ordered |].
  split; [apply Permutation_map, sorted_perm |].
  intros k. rewrite filter_rank_response. f_equal. apply sorted_filter.
Qed.

Lemma approaches_sorted_witness :
  exists result,
    aggregate Scenario.two_sum_text "python"
      (Crew.solve_leetcode_problem Scenario.three_approach_crew
         Scenario.two_sum_text "python")
    = inl (ResultDict result)
    /\ Spec.ranked_stably
         [Scenario.brute_force; Scenario.hash_map; Scenario.two_pointers]
         result
    /\ map ApproachResponse.title (Result.approaches result)
       = ["Hash Map"; "Brute Force"; "Sort and Two Pointers"].
Proof.
  eexists. split; [vm_compute; reflexivity |].
  split; [| reflexivity].
  apply (approaches_sorted_by_rank_stably Scenario.three_approach_crew
           Scenario.two_sum_text "python"
           {| Tasks.approaches :=
                [Scenario.brute_force; Scenario.hash_map;
                 Scenario.two_pointers] |}
           (Scenario.criteria_output Scenario.six_criteria));
    reflexivity.
Defined.

(** C7.  When the first stage delivers exactly two parsed records, the
    coordinator returns those two records, lower rank first, with status
    ["success"] and no error text from that stage; the response lists the
    same two dicts, and each response entry agrees with its record on all
    eight fields. *)
Theorem well_formed_pair_round_trips :
  forall (c : Crew.LeetCodeCrew) (problem_description language : string)
         (a1 a2 : Tasks.SolutionApproach)
         (criteria_output : Crew.TaskOutput Tasks.SolutionCriteria),
    Crew.kickoff c problem_description language
    = Crew.KickoffDone (Scenario.approaches_output [a1; a2]) criteria_output ->
    Spec.round_trip a1 a2 problem_description language
      (Crew.solve_leetcode_problem c problem_description language).
Proof.
  intros c pd lang a1 a2 o2 Hrun.
  rewrite (solve_when_done _ _ _ _ _ Hrun).
  unfold Spec.round_trip.
  rewrite parsed_approaches, parsed_status.
  assert (Hsorted : Py.sorted Tasks.rank [a1; a2] = Spec.in_rank_order a1 a2)
    by reflexivity.
  cbn [Scenario.approaches_output Tasks.approaches]. rewrite Hsorted.
  assert (Hne : Spec.in_rank_order a1 a2 <> []).
  { unfold Spec.in_rank_order.
    destruct (Tasks.rank a1 <=? Tasks.rank a2)%Z; discriminate. }
  repeat split.
  exists (build_result pd lang
            (Crew.parse_criteria o2
               (Crew.parse_approaches (Scenario.approaches_output [a1; a2])
                  Crew.new_result))).
  split.
  - apply aggregate_with_approaches; [apply parsed_status |].
    rewrite parsed_approaches. cbn [Scenario.approaches_output Tasks.approaches].
    now rewrite Hsorted.
  - unfold build_result.
    cbn [Result.status Result.solutions Result.approaches Result.approach_count].
    rewrite parsed_approaches.
    cbn [Scenario.approaches_output Tasks.approaches]. rewrite Hsorted.
    repeat split.
    + unfold Spec.in_rank_order.
      destruct (Tasks.rank a1 <=? Tasks.rank a2)%Z; simpl;
        repeat constructor.
    + unfold Spec.in_rank_order.
      destruct (Tasks.rank a1 <=? Tasks.rank a2)%Z; reflexivity.
Qed.

Lemma well_formed_pair_witness :
  Spec.round_trip Scenario.hash_map Scenario.brute_force
    Scenario.two_sum_text "python"
    (Crew.solve_leetcode_problem
       (Scenario.crew_yielding
          (Crew.KickoffDone
             (Scenario.approaches_output
                [Scenario.hash_map; Scenario.brute_force])
             (Scenario.criteria_output [Scenario.uses_hash_map])))
       Scenario.two_sum_text "python")
  /\ Spec.in_rank_order Scenario.hash_map Scenario.brute_force
     = [Scenario.hash_map; Scenario.brute_force].
Proof.
  split; [| reflexivity].
  apply (well_formed_pair_round_trips
           (Scenario.crew_yielding
              (Crew.KickoffDone
                 (Scenario.approaches_output
                    [Scenario.hash_map; Scenario.brute_force])
                 (Scenario.criteria_output [Scenario.uses_hash_map])))
           Scenario.two_sum_text "python"
           Scenario.hash_map Scenario.brute_force
           (Scenario.criteria_output [Scenario.uses_hash_map])).
  reflexivity.
Defined.

(** C9.  Whenever the endpoint returns a result dict, its introduction is
    built from the approach that [min] picks by rank, the first entry of
    least rank (of rank 1 when ranks start at 1 and rank 1 occurs): the
    title, [" - "], the first 200 characters of the content at most, and
    ["..."]. *)
Theorem introduction_from_best_ranked_approach :
  forall (problem_description language : string)
         (solution_result : Crew.SolutionResult) (result : Result.t),
    aggregate problem_description language solution_result
    = inl (ResultDict result) ->
    Spec.introduction_from_best result.
Proof.
  intros pd lang sr result Hreply.
  apply aggregate_result_inv in Hreply. destruct Hreply as [-> Hne].
  unfold Spec.introduction_from_best, build_result.
  cbn [Result.approaches Result.introduction].
  destruct (Crew.approaches sr) as [| a l]; [congruence |].
  cbn [map]. set (first := approach_response a).
  set (rest := map approach_response l).
  exists (Py.min_from ApproachResponse.rank first rest).
  pose proof (min_from_in ApproachResponse.rank first rest) as Hin.
  assert (Hleast : Forall (Py.key_le ApproachResponse.rank
                             (Py.min_from ApproachResponse.rank first rest))
                     (first :: rest)).
  { apply Forall_forall. intros x Hx. now apply min_from_least. }
  split; [reflexivity |].
  split; [exact Hin |].
  split; [exact Hleast |].
  split.
  - intros Hone Hall.
    apply Exists_exists in Hone. destruct Hone as (x & Hx & Hrank).
    rewrite Forall_forall in Hleast, Hall.
    specialize (Hleast x Hx). specialize (Hall _ Hin).
    unfold Py.key_le in Hleast. lia.
  - split; [reflexivity |].
    split; [apply take_is_prefix | apply take_length].
Qed.

Lemma introduction_witness :
  exists result,
    aggregate Scenario.two_sum_text "python"
      (Crew.solve_leetcode_problem Scenario.three_approach_crew
         Scenario.two_sum_text "python")
    = inl (ResultDict result)
    /\ Spec.introduction_from_best result
    /\ Result.introduction result
       = ("Hash Map - Store each value with its index; "
            ++ "look up the complement....")%string.
Proof.
  eexists. split; [vm_compute; reflexivity |].
  split; [| reflexivity].
  apply (introduction_from_best_ranked_approach Scenario.two_sum_text "python"
           (Crew.solve_leetcode_problem Scenario.three_approach_crew
              Scenario.two_sum_text "python")).
  reflexivity.
Defined.

(** ** Fallbacks, status and the size of the lists *)

(** C1, as the code has it.  A run that passed validation ends in one of
    three ways.  If the crew run raises, the endpoint raises an HTTP 500
    carrying the coordinator's error text.  Otherwise a first stage
    without structured output contributes the one fallback approach and a
    second stage without any output the one fallback criterion; an
    approaches list that is still empty is answered with the error dict
    (no fallback is put in its place), and a non-empty one with the
    result dict, whose approaches list is then non-empty and whose
    criteria are the coordinator's, non-empty whenever these are. *)
Theorem response_nonempty_or_explicit_error :
  forall (c : Crew.LeetCodeCrew) (problem_description language : string),
    Spec.response_or_error c problem_description language.
Proof.
  intros c pd lang. unfold Spec.response_or_error. cbv zeta. split.
  - intros e Hrun. rewrite (solve_when_raised _ _ _ _ Hrun).
    reflexivity.
  - intros o1 o2 Hrun. rewrite (solve_when_done _ _ _ _ _ Hrun).
    rewrite parsed_approaches, parsed_criteria.
    split; [now destruct o1 |].
    split; [now intros -> |].
    split.
    + intros Hnil. apply aggregate_without_approaches;
        [apply parsed_status | now rewrite parsed_approaches].
    + intros Hne.
      exists (build_result pd lang
                (Crew.parse_criteria o2
                   (Crew.parse_approaches o1 Crew.new_result))).
      split.
      { apply aggregate_with_approaches;
          [apply parsed_status | now rewrite parsed_approaches]. }
      unfold build_result. cbn [Result.approaches Result.solution_criteria].
      rewrite parsed_approaches, parsed_criteria.
      split; [reflexivity |].
      split.
      { intros Hmap. apply map_eq_nil in Hmap. contradiction. }
      split; [reflexivity |].
      intros Hcr Hmap. apply map_eq_nil in Hmap. contradiction.
Qed.

Lemma response_nonempty_witness :
  exists result,
    aggregate Scenario.two_sum_text "python"
      (Crew.solve_leetcode_problem Scenario.silent_crew
         Scenario.two_sum_text "python")
    = inl (ResultDict result)
    /\ Result.approaches result = [approach_response Crew.fallback_approach]
    /\ Result.solution_criteria result
       = Some [criterion_dict Crew.fallback_criterion].
Proof.
  destruct (response_nonempty_or_explicit_error Scenario.silent_crew
              Scenario.two_sum_text "python") as [_ H].
  destruct (H Crew.OutputNone Crew.OutputNone eq_refl)
    as (Ha & Hc & _ & Hres).
  specialize (Ha eq_refl). specialize (Hc eq_refl).
  destruct Hres as (result & Hreply & Happ & _ & Hcrit & _).
  { rewrite Ha. discriminate. }
  exists result. split; [exact Hreply |].
  split.
  - rewrite Happ, Ha. reflexivity.
  - rewrite Hcrit, Hc. reflexivity.
Defined.

(** The collaborator raising on every call, and a well-formed but empty
    list of approaches, both end without a response that has approaches
    and criteria. *)
Lemma fallback_never_empty_fails :
  ~ Spec.fallback_never_empty Scenario.raising_crew
      Scenario.two_sum_text "python"
  /\ ~ Spec.fallback_never_empty Scenario.no_approach_crew
         Scenario.two_sum_text "python".
Proof.
  split; intros (result & criteria & Hreply & _); discriminate Hreply.
Qed.

(** C2, as the code has it.  When the crew run returns, the coordinator
    reports ["success"], puts the fallback approach in place of a first
    stage without structured output and the fallback criterion in place
    of a second stage without any output, and keeps the criteria the
    second stage parsed whatever the first stage gave.  Its status is
    ["error"] exactly when the crew run raised, which the endpoint turns
    into an HTTP 500.  The endpoint answers with status ["success"] when
    the approaches list is non-empty and with the error dict when it is
    empty, whatever the second stage produced. *)
Theorem stage_fallbacks_and_overall_status :
  forall (c : Crew.LeetCodeCrew) (problem_description language : string),
    Spec.fallbacks_and_status c problem_description language.
Proof.
  intros c pd lang. unfold Spec.fallbacks_and_status. cbv zeta.
  split; [| split].
  - intros o1 o2 Hrun. rewrite (solve_when_done _ _ _ _ _ Hrun).
    rewrite parsed_approaches, parsed_criteria, parsed_status.
    split; [reflexivity |].
    split; [now destruct o1 |].
    split; [now intros -> |].
    split; [now intros parsed -> |].
    split.
    + intros Hne.
      exists (build_result pd lang
                (Crew.parse_criteria o2
                   (Crew.parse_approaches o1 Crew.new_result))).
      split; [| reflexivity].
      apply aggregate_with_approaches;
        [apply parsed_status | now rewrite parsed_approaches].
    + intros Hnil. apply aggregate_without_approaches;
        [apply parsed_status | now rewrite parsed_approaches].
  - unfold Crew.solve_leetcode_problem.
    destruct (Crew.kickoff c pd lang) as [e | o1 o2].
    + split; [intros _; now exists e | reflexivity].
    + rewrite parsed_status.
      split; [discriminate | intros [e He]; discriminate He].
  - apply aggregate_raises.
Qed.

Lemma stage_fallbacks_witness :
  Crew.status
    (Crew.solve_leetcode_problem Scenario.silent_crew
       Scenario.two_sum_text "python") = "success"
  /\ Crew.approaches
       (Crew.solve_leetcode_problem Scenario.silent_crew
          Scenario.two_sum_text "python") = [Crew.fallback_approach]
  /\ Crew.criteria
       (Crew.solve_leetcode_problem Scenario.silent_crew
          Scenario.two_sum_text "python") = [Crew.fallback_criterion]
  /\ exists result,
       aggregate Scenario.two_sum_text "python"
         (Crew.solve_leetcode_problem Scenario.silent_crew
            Scenario.two_sum_text "python")
       = inl (ResultDict result)
       /\ Result.status result = "success".
Proof.
  destruct (stage_fallbacks_and_overall_status Scenario.silent_crew
              Scenario.two_sum_text "python") as [H _].
  destruct (H Crew.OutputNone Crew.OutputNone eq_refl)
    as (Hs & Ha & Hc & _ & Hres & _).
  split; [exact Hs |].
  split; [exact (Ha eq_refl) |].
  split; [exact (Hc eq_refl) |].
  apply Hres. rewrite (Ha eq_refl). discriminate.
Defined.

(** A second stage whose text did not convert gets no fallback, and a
    run whose second stage succeeded is still answered with status
    ["error"] when the first stage parsed to an empty list. *)
Lemma degrade_and_continue_fails :
  ~ Spec.degrade_and_continue
      (Scenario.approaches_output [Scenario.hash_map])
      (Crew.OutputRaw "1. uses a hash map")
      Scenario.two_sum_text "python"
  /\ ~ Spec.degrade_and_continue
         (Scenario.approaches_output [])
         (Scenario.criteria_output [Scenario.uses_hash_map])
         Scenario.two_sum_text "python".
Proof.
  split.
  - intros (_ & H & _). specialize (H eq_refl). discriminate H.
  - intros (_ & _ & H). destruct (H eq_refl) as (result & Hreply & _).
    discriminate Hreply.
Qed.

(** C3, as the code has it.  Neither list is cut: whatever its length, a
    non-empty parsed list of approaches reaches the response whole, in
    rank order, and a parsed list of criteria reaches it whole, in the
    generator's order. *)
Theorem lists_exposed_without_cap :
  forall (c : Crew.LeetCodeCrew) (problem_description language : string)
         (approaches : list Tasks.SolutionApproach)
         (criteria : list Tasks.Criteria),
    Crew.kickoff c problem_description language
    = Crew.KickoffDone (Scenario.approaches_output approaches)
        (Scenario.criteria_output criteria) ->
    approaches <> [] ->
    exists result,
      aggregate problem_description language
        (Crew.solve_leetcode_problem c problem_description language)
      = inl (ResultDict result)
      /\ Spec.exposed_whole approaches criteria result.
Proof.
  intros c pd lang approaches criteria Hrun Hne.
  rewrite (solve_when_done _ _ _ _ _ Hrun).
  eexists. split.
  - apply aggregate_with_approaches; [apply parsed_status |].
    rewrite parsed_approaches. cbn [Scenario.approaches_output Tasks.approaches].
    now rewrite sorted_nil_iff.
  - unfold Spec.exposed_whole, build_result.
    cbn [Result.approaches Result.approach_count Result.solution_criteria].
    rewrite parsed_approaches, parsed_criteria.
    cbn [Scenario.approaches_output Scenario.criteria_output
         Tasks.approaches Tasks.criteria].
    rewrite length_map, sorted_length.
    repeat split.
    exists (map criterion_dict criteria).
    split; [reflexivity |].
    split; [apply length_map |].
    rewrite !map_map.
    split; apply map_ext; intros a.
    + apply criterion_dict_id.
    + apply criterion_dict_description.
Qed.

Lemma lists_exposed_witness :
  exists result,
    aggregate Scenario.two_sum_text "python"
      (Crew.solve_leetcode_problem Scenario.three_approach_crew
         Scenario.two_sum_text "python")
    = inl (ResultDict result)
    /\ Spec.exposed_whole
         [Scenario.brute_force; Scenario.hash_map; Scenario.two_pointers]
         Scenario.six_criteria result.
Proof.
  apply (lists_exposed_without_cap Scenario.three_approach_crew
           Scenario.two_sum_text "python"
           [Scenario.brute_force; Scenario.hash_map; Scenario.two_pointers]
           Scenario.six_criteria);
    [reflexivity | discriminate].
Defined.

(** Three approaches and six criteria all reach the response. *)
Lemma caps_enforced_fails :
  ~ Spec.caps_enforced
      [Scenario.brute_force; Scenario.hash_map; Scenario.two_pointers]
      Scenario.six_criteria Scenario.two_sum_text "python".
Proof.
  intros H.
  destruct (H _ eq_refl) as [Happroaches _].
  assert (Hlen : (2 < 3)%nat) by lia.
  specialize (Happroaches Hlen).
  apply (f_equal (@List.length _)) in Happroaches.
  discriminate Happroaches.
Qed.

(** C5, as the code has it.  The criteria ids of the response are the ids
    the second stage parsed, one for one and in order; nothing is dropped
    or renamed, so the ids are pairwise distinct exactly when the
    generator's ids are. *)
Theorem criterion_ids_passed_through :
  forall (c : Crew.LeetCodeCrew) (problem_description language : string)
         (solution_output : Crew.TaskOutput Tasks.SolutionApproaches)
         (parsed : Tasks.SolutionCriteria) (result : Result.t),
    Crew.kickoff c problem_description language
    = Crew.KickoffDone solution_output (Crew.OutputPydantic parsed) ->
    aggregate problem_description language
      (Crew.solve_leetcode_problem c problem_description language)
    = inl (ResultDict result) ->
    Spec.ids_passed_through (Tasks.criteria parsed) result.
Proof.
  intros c pd lang o1 parsed result Hrun Hreply.
  rewrite (solve_when_done _ _ _ _ _ Hrun) in Hreply.
  apply aggregate_result_inv in Hreply. destruct Hreply as [-> _].
  unfold Spec.ids_passed_through, build_result.
  cbn [Result.solution_criteria]. rewrite parsed_criteria.
  assert (Hids : map Criterion.id (map criterion_dict (Tasks.criteria parsed))
                 = map Tasks.id (Tasks.criteria parsed)).
  { rewrite map_map. apply map_ext. intros a. apply criterion_dict_id. }
  eexists. split; [reflexivity |].
  split; [exact Hids |].
  now rewrite Hids.
Qed.

Lemma criterion_ids_witness :
  exists result,
    aggregate Scenario.two_sum_text "python"
      (Crew.solve_leetcode_problem Scenario.duplicate_id_crew
         Scenario.two_sum_text "python")
    = inl (ResultDict result)
    /\ Spec.ids_passed_through
         [Scenario.uses_hash_map; Scenario.uses_hash_map_again] result.
Proof.
  eexists. split; [vm_compute; reflexivity |].
  apply (criterion_ids_passed_through Scenario.duplicate_id_crew
           Scenario.two_sum_text "python"
           (Scenario.approaches_output [Scenario.hash_map])
           {| Tasks.criteria :=
                [Scenario.uses_hash_map; Scenario.uses_hash_map_again] |});
    reflexivity.
Defined.

(** Two criteria that share an id both reach the response under it. *)
Lemma unique_criterion_ids_fails :
  ~ Spec.unique_criterion_ids Scenario.duplicate_id_crew
      Scenario.two_sum_text "python".
Proof.
  intros H.
  specialize (H _ _ eq_refl eq_refl).
  cbn in H. inversion H as [| x l Hin _]. apply Hin. now left.
Qed.

(** ** The string-list normalizer *)

Section NormalizerFacts.
Variable JSON : Type.
Variable json_truthy : JSON -> bool.
Variable json_str : JSON -> string.
Variable json_loads : string -> option (list JSON).

Local Abbreviation respond :=
  (TestNewApi.respond JSON json_truthy json_str json_loads).

(** A text that is not bracketed never reaches [json.loads] or the
    handler: it is kept as the only criterion (or dropped when empty), on
    either path. *)
Lemma unbracketed_text_kept_whole (solution text : string)
  (later_tasks : list string) :
  TestNewApi.bracketed text = false ->
  TestNewApi.criteria (respond (TestNewApi.Dict solution text))
  = (if Py.truthy text then [Py.strip text] else [])
  /\ TestNewApi.criteria
       (respond (TestNewApi.CrewOutput (solution :: text :: later_tasks)))
     = (if Py.truthy text then [Py.strip text] else []).
Proof.
  intros Hb.
  unfold TestNewApi.respond, TestNewApi.extract,
    TestNewApi.parse_dict_criteria, TestNewApi.parse_task_criteria.
  rewrite Hb. cbn. now destruct (Py.truthy text).
Qed.

(** The handler of lines 93-112, entered directly with the text of the
    embedded-JSON scenario, hands the embedded array to [json.loads] and
    returns what it decodes. *)
Lemma recover_isolates_embedded_array (decoded : list JSON) :
  json_loads ("[" ++ Scenario.q ++ "a" ++ Scenario.q ++ ", "
                ++ Scenario.q ++ "b" ++ Scenario.q ++ "]")%string
  = Some decoded ->
  TestNewApi.recover JSON json_loads Scenario.embedded_text
  = map TestNewApi.Decoded decoded.
Proof.
  intros H.
  assert (E : TestNewApi.embedded_json Scenario.embedded_text
              = Some ("[" ++ Scenario.q ++ "a" ++ Scenario.q ++ ", "
                        ++ Scenario.q ++ "b" ++ Scenario.q ++ "]")%string)
    by reflexivity.
  unfold TestNewApi.recover. now rewrite E, H.
Qed.

End NormalizerFacts.

(** C8.  On the raw text of the embedded-JSON scenario
    ([Scenario.embedded_text]) the normalizer does not reach its
    extraction step.  The text does not
    begin with a bracket, so line 91 (and line 124 on the dict path)
    keeps it whole as the only criterion, whatever [json.loads] would do;
    the response is not the list of the two embedded strings.  Run on
    its own, the index search and slice of lines 96-103 does isolate the
    embedded array. *)
Theorem embedded_json_text_returned_whole :
  forall (JSON : Type) (json_truthy : JSON -> bool) (json_str : JSON -> string)
         (json_loads : string -> option (list JSON))
         (solution : string) (later_tasks : list string),
    let respond :=
      TestNewApi.respond JSON json_truthy json_str json_loads in
    TestNewApi.criteria
      (respond (TestNewApi.Dict solution Scenario.embedded_text))
    = [Scenario.embedded_text]
    /\ TestNewApi.criteria
         (respond
            (TestNewApi.CrewOutput
               (solution :: Scenario.embedded_text :: later_tasks)))
       = [Scenario.embedded_text]
    /\ ~ Spec.embedded_json_recovered
           (respond (TestNewApi.Dict solution Scenario.embedded_text))
    /\ ~ Spec.embedded_json_recovered
           (respond
              (TestNewApi.CrewOutput
                 (solution :: Scenario.embedded_text :: later_tasks)))
    /\ TestNewApi.embedded_json Scenario.embedded_text
       = Some ("[" ++ Scenario.q ++ "a" ++ Scenario.q ++ ", "
                 ++ Scenario.q ++ "b" ++ Scenario.q ++ "]")%string.
Proof.
  intros JSON json_truthy json_str json_loads solution later_tasks respond.
  destruct (unbracketed_text_kept_whole JSON json_truthy json_str json_loads
              solution Scenario.embedded_text later_tasks eq_refl)
    as [Hdict Htask].
  change (Py.strip Scenario.embedded_text) with Scenario.embedded_text
    in Hdict, Htask.
  cbn [Py.truthy Scenario.embedded_text] in Hdict, Htask.
  unfold Spec.embedded_json_recovered, respond. rewrite Hdict, Htask.
  split; [reflexivity |].
  split; [reflexivity |].
  split; [discriminate |].
  split; [discriminate | reflexivity].
Qed.

(** * Properties beyond the claims *)

(** ** Stripping *)

Section StripFacts.
Variable p : ascii -> bool.

Local Abbreviation all_p s := (forallb p (list_ascii_of_string s)).

Lemma append_empty_r (a b : string) : (a ++ b)%string = "" -> b = "".
Proof. destruct a; simpl; [auto | discriminate]. Qed.

Lemma lstrip_by_pad (pad s : string) :
  all_p pad = true -> Py.lstrip_by p (pad ++ s) = Py.lstrip_by p s.
Proof.
  induction pad as [| c pad IH]; simpl; [reflexivity |].
  intros H. apply andb_true_iff in H. destruct H as [Hc Hpad].
  rewrite Hc. now apply IH.
Qed.

Lemma rstrip_by_all (pad : string) :
  all_p pad = true -> Py.rstrip_by p pad = "".
Proof.
  induction pad as [| c pad IH]; simpl; [reflexivity |].
  intros H. apply andb_true_iff in H. destruct H as [Hc Hpad].
  rewrite (IH Hpad). now rewrite Hc.
Qed.

Lemma rstrip_by_pad (s pad : string) :
  all_p pad = true -> Py.rstrip_by p (s ++ pad) = Py.rstrip_by p s.
Proof.
  intros H. induction s as [| c s IH]; simpl.
  - now apply rstrip_by_all.
  - now rewrite IH.
Qed.

Lemma rstrip_by_after_pad (pad s : string) :
  all_p pad = true ->
  Py.rstrip_by p (pad ++ s)
  = match Py.rstrip_by p s with
    | EmptyString => EmptyString
    | String c r => (pad ++ String c r)%string
    end.
Proof.
  induction pad as [| c pad IH]; simpl; intros H.
  - now destruct (Py.rstrip_by p s).
  - apply andb_true_iff in H. destruct H as [Hc Hpad].
    rewrite (IH Hpad).
    destruct (Py.rstrip_by p s) as [| d r]; [now rewrite Hc |].
    now destruct pad.
Qed.

Lemma rstrip_by_idempotent (s : string) :
  Py.rstrip_by p (Py.rstrip_by p s) = Py.rstrip_by p s.
Proof.
  induction s as [| c s IH]; simpl; [reflexivity |].
  destruct (Py.rstrip_by p s) as [| d r] eqn:E.
  - destruct (p c) eqn:Hc; simpl; [reflexivity | now rewrite Hc].
  - cbn [Py.rstrip_by]. cbn [Py.rstrip_by] in IH. now rewrite IH.
Qed.

Lemma lstrip_by_keeps_rstripped (t : string) :
  Py.rstrip_by p t = t ->
  Py.rstrip_by p (Py.lstrip_by p t) = Py.lstrip_by p t.
Proof.
  induction t as [| c t IH]; simpl; [reflexivity |].
  intros H. destruct (p c) eqn:Hc.
  - apply IH. destruct (Py.rstrip_by p t) as [| d r].
    + discriminate.
    + now injection H.
  - simpl. rewrite Hc. exact H.
Qed.

Lemma lstrip_by_idempotent (s : string) :
  Py.lstrip_by p (Py.lstrip_by p s) = Py.lstrip_by p s.
Proof.
  induction s as [| c s IH]; simpl; [reflexivity |].
  destruct (p c) eqn:Hc; [exact IH | simpl; now rewrite Hc].
Qed.

Lemma lstrip_by_length (s : string) :
  (String.length (Py.lstrip_by p s) <= String.length s)%nat.
Proof.
  induction s as [| c s IH]; simpl; [lia |].
  destruct (p c); simpl; lia.
Qed.

Lemma rstrip_by_length (s : string) :
  (String.length (Py.rstrip_by p s) <= String.length s)%nat.
Proof.
  induction s as [| c s IH]; simpl; [lia |].
  destruct (Py.rstrip_by p s); [destruct (p c) |]; simpl in *; lia.
Qed.

End StripFacts.

Lemma strip_idempotent (s : string) : Py.strip (Py.strip s) = Py.strip s.
Proof.
  unfold Py.strip.
  rewrite (lstrip_by_keeps_rstripped Py.isspace (Py.rstrip_by Py.isspace s))
    by apply rstrip_by_idempotent.
  apply lstrip_by_idempotent.
Qed.

Lemma strip_length (s : string) :
  (String.length (Py.strip s) <= String.length s)%nat.
Proof.
  unfold Py.strip.
  pose proof (lstrip_by_length Py.isspace (Py.rstrip_by Py.isspace s)).
  pose proof (rstrip_by_length Py.isspace s). lia.
Qed.

Lemma strip_padded (pad s pad' : string) :
  Extra.whitespace pad = true ->
  Extra.whitespace pad' = true ->
  Py.strip (pad ++ s ++ pad') = Py.strip s.
Proof.
  unfold Extra.whitespace, Py.strip. intros Hpad Hpad'.
  replace (pad ++ s ++ pad')%string with ((pad ++ s) ++ pad')%string
    by (clear Hpad; induction pad as [| c pad IH]; simpl;
        [reflexivity | now rewrite IH]).
  rewrite rstrip_by_pad by exact Hpad'.
  rewrite rstrip_by_after_pad by exact Hpad.
  destruct (Py.rstrip_by Py.isspace s) as [| c r]; [reflexivity |].
  now apply lstrip_by_pad.
Qed.

Lemma strip_whitespace (s : string) :
  Extra.whitespace s = true -> Py.strip s = "".
Proof.
  unfold Extra.whitespace, Py.strip. intros H.
  now rewrite rstrip_by_all.
Qed.

(** ** Validation and language, further *)

(** X1.  Validation does not see surrounding whitespace: padding a problem
    text with whitespace characters on either side never changes whether
    the endpoint accepts it. *)
Theorem validation_ignores_surrounding_whitespace :
  forall pad s pad' : string,
    Extra.whitespace pad = true ->
    Extra.whitespace pad' = true ->
    too_short (pad ++ s ++ pad') = too_short s.
Proof.
  intros pad s pad' Hpad Hpad'. unfold too_short, Py.len.
  rewrite (strip_padded pad s pad' Hpad Hpad').
  destruct (Py.truthy s) eqn:Hs.
  - assert (Ht : Py.truthy (pad ++ s ++ pad') = true).
    { destruct pad; simpl; [| reflexivity]. now destruct s. }
    now rewrite Ht.
  - destruct s; [| discriminate]. simpl.
    now rewrite orb_true_r.
Qed.

Lemma validation_ignores_whitespace_witness :
  Extra.whitespace "   " = true
  /\ too_short ("   " ++ "Two Sum" ++ "   ") = too_short "Two Sum".
Proof.
  split; [reflexivity |].
  apply (validation_ignores_surrounding_whitespace "   " "Two Sum" "   ");
    reflexivity.
Defined.

(** X2.  A problem text of fewer than 10 characters, or made of
    whitespace only, is always rejected, whatever the process and the
    crew: the endpoint answers with the error dict and calls nothing. *)
Theorem short_or_blank_text_rejected :
  forall (LeetCodeCrew : string -> Crew.LeetCodeCrew) (request : Request.t)
         (p : Process),
    (String.length (Request.content request) < 10)%nat
    \/ Extra.whitespace (Request.content request) = true ->
    generate_leetcode_solution LeetCodeCrew request p
    = (inl (ErrorDict "error" too_short_message), p).
Proof.
  intros L request p H. apply generate_rejects.
  unfold too_short, Py.len. apply orb_true_iff. right. apply Z.ltb_lt.
  destruct H as [H | H].
  - pose proof (strip_length (Request.content request)). lia.
  - rewrite (strip_whitespace _ H). simpl. lia.
Qed.

Lemma short_or_blank_text_witness :
  Extra.whitespace (String Py.newline "            ") = true
  /\ generate_leetcode_solution (fun _ => Scenario.three_approach_crew)
       {| Request.title := "Two Sum";
          Request.content := String Py.newline "            ";
          Request.programmingLanguage := None;
          Request.programLanguage := None;
          Request.language := None |}
       Scenario.fresh_process
     = (inl (ErrorDict "error" too_short_message), Scenario.fresh_process).
Proof.
  split; [reflexivity |].
  apply (short_or_blank_text_rejected (fun _ => Scenario.three_approach_crew)).
  right. reflexivity.
Defined.

Lemma generate_calls (LeetCodeCrew : string -> Crew.LeetCodeCrew)
  (request : Request.t) (p : Process) :
  solve_calls (snd (generate_leetcode_solution LeetCodeCrew request p))
  = if negb (too_short (Request.content request)) && Extra.crew_available p
    then (Request.content request, request_language request) :: solve_calls p
    else solve_calls p.
Proof.
  unfold Extra.crew_available.
  destruct (too_short (Request.content request)) eqn:Hshort.
  - now rewrite (generate_rejects LeetCodeCrew request p Hshort).
  - destruct (get_leetcode_crew LeetCodeCrew p) as [[c | e] p1] eqn:Hcrew.
    + rewrite (generate_runs LeetCodeCrew request p p1 c Hshort Hcrew).
      unfold get_leetcode_crew in Hcrew.
      destruct (crew p).
      * injection Hcrew as _ <-. reflexivity.
      * destruct (Py.truthy_opt (OPENAI_API_KEY p)).
        -- injection Hcrew as _ <-. reflexivity.
        -- discriminate.
    + rewrite (generate_without_crew LeetCodeCrew request p p1 e Hshort Hcrew).
      unfold get_leetcode_crew in Hcrew.
      destruct (crew p); [discriminate |].
      destruct (Py.truthy_opt (OPENAI_API_KEY p)); [discriminate |].
      unfold raise in Hcrew. injection Hcrew as _ <-. reflexivity.
Qed.

Lemma request_language_truthy (request : Request.t) :
  Py.truthy (request_language request) = true.
Proof.
  unfold request_language. simpl.
  destruct (Request.programmingLanguage request) as [[| ? ?] |];
    destruct (Request.programLanguage request) as [[| ? ?] |];
    destruct (Request.language request) as [[| ? ?] |]; reflexivity.
Qed.

(** X3.  The crew is never asked for a solution in an unnamed language:
    the language the endpoint selects is never the empty string, so if
    every recorded crew call so far named a language, so does every one
    after the request. *)
Theorem crew_calls_always_name_a_language :
  forall (LeetCodeCrew : string -> Crew.LeetCodeCrew) (request : Request.t)
         (p : Process),
    Forall Extra.call_has_language (solve_calls p) ->
    Py.truthy (request_language request) = true
    /\ Forall Extra.call_has_language
         (solve_calls (snd (generate_leetcode_solution LeetCodeCrew request p))).
Proof.
  intros L request p Hcalls.
  split; [apply request_language_truthy |].
  rewrite generate_calls.
  destruct (negb (too_short (Request.content request))
            && Extra.crew_available p); [| exact Hcalls].
  constructor; [apply request_language_truthy | exact Hcalls].
Qed.

Lemma crew_calls_language_witness :
  Forall Extra.call_has_language (solve_calls Scenario.fresh_process)
  /\ Forall Extra.call_has_language
       (solve_calls
          (snd (generate_leetcode_solution
                  (fun _ => Scenario.three_approach_crew)
                  {| Request.title := "Two Sum";
                     Request.content := Scenario.two_sum_text;
                     Request.programmingLanguage := Some "";
                     Request.programLanguage := None;
                     Request.language := Some "" |}
                  Scenario.fresh_process))).
Proof.
  split; [constructor |].
  apply (crew_calls_always_name_a_language
           (fun _ => Scenario.three_approach_crew)).
  constructor.
Defined.

(** X4.  The validator leaves a request with at least one non-empty
    language field, touches no field other than [programmingLanguage],
    sets that field only to ["python"], and changes nothing when run a
    second time. *)
Theorem check_language_field_postcondition :
  forall request : Request.t,
    let validated := check_language_field request in
    Py.truthy_opt (Request.programmingLanguage validated)
    || Py.truthy_opt (Request.programLanguage validated)
    || Py.truthy_opt (Request.language validated) = true
    /\ Request.title validated = Request.title request
    /\ Request.content validated = Request.content request
    /\ Request.programLanguage validated = Request.programLanguage request
    /\ Request.language validated = Request.language request
    /\ (Request.programmingLanguage validated
        = Request.programmingLanguage request
        \/ Request.programmingLanguage validated = Some "python")
    /\ check_language_field validated = validated.
Proof.
  intros [t c [[| ? ?] |] [[| ? ?] |] [[| ? ?] |]]; cbv zeta;
    repeat split; auto.
Qed.

Lemma get_leetcode_crew_state (LeetCodeCrew : string -> Crew.LeetCodeCrew)
  (p p1 : Process) (r : Crew.LeetCodeCrew + HTTPException) :
  get_leetcode_crew LeetCodeCrew p = (r, p1) ->
  OPENAI_API_KEY p1 = OPENAI_API_KEY p
  /\ (forall c, crew p = Some c -> crew p1 = Some c)
  /\ (forall c, r = inl c -> crew p1 = Some c).
Proof.
  unfold get_leetcode_crew. intros H.
  destruct (crew p) as [c0 |] eqn:E.
  - injection H as <- <-.
    split; [reflexivity |]. split.
    + intros c Hc. now rewrite E.
    + intros c Hc. injection Hc as <-. exact E.
  - destruct (Py.truthy_opt (OPENAI_API_KEY p)).
    + injection H as <- <-.
      split; [reflexivity |]. split; [discriminate |].
      intros c Hc. now injection Hc as <-.
    + unfold raise in H. injection H as <- <-.
      split; [reflexivity |]. split; discriminate.
Qed.

(** X5.  The crew is built at most once.  Once [get_leetcode_crew] has
    answered with a crew, the function attribute holds it, and every
    later call answers with that same crew and leaves the process as it
    is, whatever the key has become and whatever constructor is at
    hand. *)
Theorem crew_built_once_then_reused :
  forall (LeetCodeCrew : string -> Crew.LeetCodeCrew) (p p1 : Process)
         (c : Crew.LeetCodeCrew),
    get_leetcode_crew LeetCodeCrew p = (inl c, p1) ->
    crew p1 = Some c
    /\ OPENAI_API_KEY p1 = OPENAI_API_KEY p
    /\ forall (other : string -> Crew.LeetCodeCrew) (key : option string)
              (calls : list (string * string)),
         get_leetcode_crew other (Extra.later_process p1 key calls)
         = (inl c, Extra.later_process p1 key calls).
Proof.
  intros L p p1 c H.
  destruct (get_leetcode_crew_state L p p1 (inl c) H) as (Hkey & _ & Hset).
  specialize (Hset c eq_refl).
  split; [exact Hset |]. split; [exact Hkey |].
  intros other key calls.
  unfold get_leetcode_crew, Extra.later_process. cbn [crew].
  now rewrite Hset.
Qed.

Lemma crew_built_once_witness :
  get_leetcode_crew (fun _ => Scenario.three_approach_crew)
    Scenario.fresh_process
  = (inl Scenario.three_approach_crew,
     Extra.later_process
       {| OPENAI_API_KEY := None;
          crew := Some Scenario.three_approach_crew;
          solve_calls := [] |}
       (Some "sk-test") [])
  /\ get_leetcode_crew (fun _ => Scenario.silent_crew)
       {| OPENAI_API_KEY := None;
          crew := Some Scenario.three_approach_crew;
          solve_calls := [] |}
     = (inl Scenario.three_approach_crew,
        {| OPENAI_API_KEY := None;
           crew := Some Scenario.three_approach_crew;
           solve_calls := [] |}).
Proof.
  split; [reflexivity |].
  destruct (crew_built_once_then_reused
              (fun _ => Scenario.three_approach_crew)
              Scenario.fresh_process _ _ eq_refl) as (_ & _ & H).
  exact (H (fun _ => Scenario.silent_crew) None []).
Defined.

(** X6.  Without a crew and without a usable key (the variable unset or
    empty), a request that passes validation ends in an HTTP 500 that
    names the missing key; the process is left as it was and no
    generation stage is called. *)
Theorem missing_key_fails_before_any_stage :
  forall (LeetCodeCrew : string -> Crew.LeetCodeCrew) (request : Request.t)
         (p : Process),
    too_short (Request.content request) = false ->
    Extra.crew_available p = false ->
    generate_leetcode_solution LeetCodeCrew request p
    = (inr {| status_code := 500;
              detail := Extra.key_not_found_message |}, p).
Proof.
  intros L request p Hshort Hcrew.
  apply generate_without_crew; [exact Hshort |].
  unfold Extra.crew_available in Hcrew. unfold get_leetcode_crew.
  destruct (crew p); [discriminate |]. now rewrite Hcrew.
Qed.

Lemma missing_key_witness :
  generate_leetcode_solution (fun _ => Scenario.three_approach_crew)
    Scenario.two_sum_request Sample.keyless_process
  = (inr {| status_code := 500;
            detail := Extra.key_not_found_message |},
     Sample.keyless_process).
Proof.
  apply (missing_key_fails_before_any_stage
           (fun _ => Scenario.three_approach_crew)
           Scenario.two_sum_request Sample.keyless_process);
    reflexivity.
Defined.

Lemma cons_neq {A : Type} (x : A) (l : list A) : x :: l <> l.
Proof.
  intros H. apply (f_equal (@List.length A)) in H. simpl in H. lia.
Qed.

(** X7.  What one request does to the process: the key is never
    changed; a crew that is set stays the same crew; and exactly one
    crew call is recorded when the text passes validation and a crew is
    at hand, none otherwise, whether or not that call or the aggregation
    then fails. *)
Theorem request_effect_on_process :
  forall (LeetCodeCrew : string -> Crew.LeetCodeCrew) (request : Request.t)
         (p : Process),
    let after := snd (generate_leetcode_solution LeetCodeCrew request p) in
    OPENAI_API_KEY after = OPENAI_API_KEY p
    /\ (forall c, crew p = Some c -> crew after = Some c)
    /\ (solve_calls after
        = (Request.content request, request_language request) :: solve_calls p
        <-> too_short (Request.content request) = false
            /\ Extra.crew_available p = true)
    /\ (solve_calls after = solve_calls p
        <-> too_short (Request.content request) = true
            \/ Extra.crew_available p = false).
Proof.
  intros L request p after.
  assert (Hcalls := generate_calls L request p). fold after in Hcalls.
  assert (Hstate : OPENAI_API_KEY after = OPENAI_API_KEY p
                   /\ forall c, crew p = Some c -> crew after = Some c).
  { subst after. destruct (too_short (Request.content request)) eqn:Hshort.
    - rewrite (generate_rejects L request p Hshort). now split.
    - destruct (get_leetcode_crew L p) as [[c | e] p1] eqn:Hcrew.
      + rewrite (generate_runs L request p p1 c Hshort Hcrew).
        destruct (get_leetcode_crew_state L p p1 _ Hcrew) as (Hk & Hkeep & _).
        cbn. split; [exact Hk | exact Hkeep].
      + rewrite (generate_without_crew L request p p1 e Hshort Hcrew).
        destruct (get_leetcode_crew_state L p p1 _ Hcrew) as (Hk & Hkeep & _).
        cbn. split; [exact Hk | exact Hkeep]. }
  destruct Hstate as [Hkey Hcrew].
  split; [exact Hkey |]. split; [exact Hcrew |].
  rewrite Hcalls.
  destruct (too_short (Request.content request));
    destruct (Extra.crew_available p); simpl; split; split;
    try tauto; try (intros H; exfalso; symmetry in H; revert H;
                    apply cons_neq);
    try (intros H; exfalso; revert H; apply cons_neq);
    intuition discriminate.
Qed.

(** ** The aggregator, further *)

Lemma length_append_str (a b : string) :
  String.length (a ++ b) = (String.length a + String.length b)%nat.
Proof. induction a as [| c a IH]; simpl; [reflexivity | now rewrite IH]. Qed.

Lemma take_length_min (n : nat) (s : string) :
  String.length (Py.take n s) = Nat.min n (String.length s).
Proof.
  unfold Py.take. revert s.
  induction n as [| n IH]; intros [| c s]; simpl; try reflexivity.
  now rewrite IH.
Qed.

Lemma take_all (n : nat) (s : string) :
  (String.length s <= n)%nat -> Py.take n s = s.
Proof.
  unfold Py.take. revert s.
  induction n as [| n IH]; intros [| c s]; simpl; intros H;
    try reflexivity; try lia.
  rewrite IH by lia. reflexivity.
Qed.

Lemma prefix_append (a b : string) : String.prefix a (a ++ b) = true.
Proof.
  induction a as [| c a IH]; simpl; [now destruct b |].
  now destruct (ascii_dec c c).
Qed.

Lemma same_fields_map (l : list Tasks.SolutionApproach) :
  Forall2 Spec.same_fields l (map approach_response l).
Proof.
  induction l as [| a l IH]; simpl; constructor;
    [apply approach_response_same_fields | exact IH].
Qed.

(** X8.  Every result dict is well formed: its status is ["success"], it
    echoes the problem text, [solutions] holds the coordinator's
    approaches and agrees with [approaches] entry by entry on all eight
    fields, [approach_count] is the length of [approaches] and at least
    1, and [full_text] opens with the heading of approach 1. *)
Theorem result_dict_well_formed :
  forall (problem_description language : string)
         (solution_result : Crew.SolutionResult) (result : Result.t),
    aggregate problem_description language solution_result
    = inl (ResultDict result) ->
    Extra.well_formed_result problem_description solution_result result.
Proof.
  intros pd lang sr result H.
  apply aggregate_result_inv in H. destruct H as [-> Hne].
  unfold Extra.well_formed_result, build_result.
  cbn [Result.status Result.leetcode_problem Result.solutions
       Result.approaches Result.approach_count Result.full_text].
  split; [reflexivity |]. split; [reflexivity |]. split; [reflexivity |].
  split.
  { apply same_fields_map. }
  split; [reflexivity |].
  destruct (Crew.approaches sr) as [| a l]; [congruence |].
  split; [simpl; lia |].
  cbn [map make_full_text]. unfold full_text_parts.
  change (Py.str_of_nat (0 + 1)) with "1".
  exact (prefix_append "## Approach 1: " _).
Qed.

Lemma result_dict_well_formed_witness :
  exists result,
    aggregate Scenario.two_sum_text "python"
      (Crew.solve_leetcode_problem Scenario.three_approach_crew
         Scenario.two_sum_text "python")
    = inl (ResultDict result)
    /\ Extra.well_formed_result Scenario.two_sum_text
         (Crew.solve_leetcode_problem Scenario.three_approach_crew
            Scenario.two_sum_text "python")
         result.
Proof.
  eexists. split; [vm_compute; reflexivity |].
  apply (result_dict_well_formed Scenario.two_sum_text "python").
  reflexivity.
Defined.

(** X9.  The criteria of a result dict are the coordinator's criteria, one
    for one: same ids and descriptions in the same order, each with an
    empty [pattern].  The list is empty exactly when the coordinator's
    is: the default criterion of lines 338-344 is never put in. *)
Theorem criteria_reach_the_response_as_given :
  forall (problem_description language : string)
         (solution_result : Crew.SolutionResult) (result : Result.t),
    aggregate problem_description language solution_result
    = inl (ResultDict result) ->
    Extra.criteria_as_given solution_result result.
Proof.
  intros pd lang sr result H.
  apply aggregate_result_inv in H. destruct H as [-> _].
  unfold Extra.criteria_as_given, build_result.
  cbn [Result.solution_criteria].
  eexists. split; [reflexivity |].
  rewrite !map_map.
  split; [apply map_ext, criterion_dict_id |].
  split; [apply map_ext, criterion_dict_description |].
  split.
  - apply Forall_map, Forall_forall. reflexivity.
  - split; intros Hnil.
    + now apply map_eq_nil in Hnil.
    + now rewrite Hnil.
Qed.

Lemma criteria_as_given_witness :
  exists result,
    aggregate Scenario.two_sum_text "python"
      (Crew.solve_leetcode_problem Sample.unconverted_criteria_crew
         Scenario.two_sum_text "python")
    = inl (ResultDict result)
    /\ Extra.criteria_as_given
         (Crew.solve_leetcode_problem Sample.unconverted_criteria_crew
            Scenario.two_sum_text "python")
         result
    /\ Result.solution_criteria result = Some [].
Proof.
  eexists. split; [vm_compute; reflexivity |].
  split; [| reflexivity].
  apply (criteria_reach_the_response_as_given Scenario.two_sum_text "python").
  reflexivity.
Defined.

(** X10.  A failure to read the criteria is not reported.  When the text
    of the second stage did not convert to the model, the coordinator
    notes an error text but keeps status ["success"]; the endpoint reads
    only the status, so its reply is the one it would give had no error
    been noted. *)
Theorem unconverted_criteria_pass_silently :
  forall (c : Crew.LeetCodeCrew) (problem_description language raw : string)
         (solution_output : Crew.TaskOutput Tasks.SolutionApproaches),
    Crew.kickoff c problem_description language
    = Crew.KickoffDone solution_output (Crew.OutputRaw raw) ->
    let solution_result :=
      Crew.solve_leetcode_problem c problem_description language in
    Crew.status solution_result = "success"
    /\ Crew.error solution_result
       = (" Error parsing educational insights: "
            ++ Crew.none_has_no_criteria)%string
    /\ Crew.criteria solution_result = []
    /\ aggregate problem_description language solution_result
       = aggregate problem_description language
           (Crew.set_error "" solution_result).
Proof.
  intros c pd lang raw o1 Hrun. cbv zeta.
  rewrite (solve_when_done _ _ _ _ _ Hrun).
  destruct o1; repeat split.
Qed.

Lemma unconverted_criteria_witness :
  Crew.status
    (Crew.solve_leetcode_problem Sample.unconverted_criteria_crew
       Scenario.two_sum_text "python") = "success"
  /\ Py.truthy
       (Crew.error
          (Crew.solve_leetcode_problem Sample.unconverted_criteria_crew
             Scenario.two_sum_text "python")) = true.
Proof.
  destruct (unconverted_criteria_pass_silently
              Sample.unconverted_criteria_crew Scenario.two_sum_text "python"
              "1. uses a hash map"
              (Scenario.approaches_output [Scenario.hash_map]) eq_refl)
    as (Hs & He & _).
  split; [exact Hs |]. rewrite He. reflexivity.
Defined.

(** X11.  The introduction is never longer than the best approach's
    title plus 206 characters: it has the title, three characters of
    separator, at most 200 characters of content and three dots.  The
    dots are there even when the content is short enough to be shown in
    full. *)
Theorem introduction_length_and_ellipsis :
  forall (problem_description language : string)
         (solution_result : Crew.SolutionResult) (result : Result.t),
    aggregate problem_description language solution_result
    = inl (ResultDict result) ->
    Extra.introduction_sized result.
Proof.
  intros pd lang sr result H.
  apply aggregate_result_inv in H. destruct H as [-> Hne].
  unfold Extra.introduction_sized, build_result.
  cbn [Result.approaches Result.introduction].
  unfold make_introduction.
  destruct (Py.min ApproachResponse.rank
              (map approach_response (Crew.approaches sr)))
    as [best |] eqn:Hmin.
  - exists best. split; [reflexivity |]. split.
    + rewrite !length_append_str, take_length_min. simpl. lia.
    + intros Hshort. now rewrite take_all.
  - destruct (Crew.approaches sr); [congruence | discriminate].
Qed.

Lemma introduction_length_witness :
  exists result,
    aggregate Scenario.two_sum_text "python"
      (Crew.solve_leetcode_problem Scenario.three_approach_crew
         Scenario.two_sum_text "python")
    = inl (ResultDict result)
    /\ Extra.introduction_sized result.
Proof.
  eexists. split; [vm_compute; reflexivity |].
  apply (introduction_length_and_ellipsis Scenario.two_sum_text "python"
           (Crew.solve_leetcode_problem Scenario.three_approach_crew
              Scenario.two_sum_text "python")).
  reflexivity.
Defined.

Lemma full_text_without_code (lang1 lang2 : string) (i : nat)
  (l : list ApproachResponse.t) :
  Forall (fun a => ApproachResponse.code a = "") l ->
  make_full_text lang1 i l = make_full_text lang2 i l.
Proof.
  intros H. revert i.
  induction H as [| a l Ha Hl IH]; intros i; simpl; [reflexivity |].
  rewrite (IH (S i)). unfold full_text_parts. now rewrite Ha.
Qed.

(** X12.  The requested language reaches the reply in two places only,
    the echoed [language] field and the opening of the code fences.
    When no approach carries code, two runs that differ in the language
    alone give result dicts that agree on every other field. *)
Theorem language_shows_only_in_code_fences :
  forall (problem_description language1 language2 : string)
         (solution_result : Crew.SolutionResult) (result1 result2 : Result.t),
    aggregate problem_description language1 solution_result
    = inl (ResultDict result1) ->
    aggregate problem_description language2 solution_result
    = inl (ResultDict result2) ->
    Forall (fun a => Tasks.code a = "") (Crew.approaches solution_result) ->
    Extra.same_but_language result1 result2.
Proof.
  intros pd lang1 lang2 sr r1 r2 H1 H2 Hcode.
  apply aggregate_result_inv in H1, H2.
  destruct H1 as [-> _]. destruct H2 as [-> _].
  unfold Extra.same_but_language, build_result.
  cbn [Result.leetcode_problem Result.approaches Result.solution_criteria
       Result.status Result.solutions Result.introduction Result.full_text
       Result.approach_count].
  repeat split.
  apply full_text_without_code, Forall_map. exact Hcode.
Qed.

Lemma language_shows_only_witness :
  exists result1 result2,
    aggregate Scenario.two_sum_text "python"
      (Crew.solve_leetcode_problem Sample.codeless_crew
         Scenario.two_sum_text "python")
    = inl (ResultDict result1)
    /\ aggregate Scenario.two_sum_text "java"
         (Crew.solve_leetcode_problem Sample.codeless_crew
            Scenario.two_sum_text "python")
       = inl (ResultDict result2)
    /\ Extra.same_but_language result1 result2.
Proof.
  eexists. eexists.
  split; [vm_compute; reflexivity |].
  split; [vm_compute; reflexivity |].
  apply (language_shows_only_in_code_fences Scenario.two_sum_text
           "python" "java"
           (Crew.solve_leetcode_problem Sample.codeless_crew
              Scenario.two_sum_text "python"));
    [reflexivity | reflexivity |].
  repeat constructor.
Defined.

(** ** The coordinator, further *)

Lemma sorted_fixes_ordered {A : Type} (key : A -> Z) (l : list A) :
  StronglySorted (Py.key_le key) l -> Py.sorted key l = l.
Proof.
  induction 1 as [| x l Hl IH Hx]; simpl; [reflexivity |].
  rewrite IH. destruct Hx as [| y l Hy _]; simpl; [reflexivity |].
  unfold Py.key_le in Hy. apply Z.leb_le in Hy. now rewrite Hy.
Qed.

(** X13.  A parsed list of approaches that is already in rank order, of
    any length, comes back from the coordinator exactly as given, and the
    response lists its entries in that same order. *)
Theorem ordered_approaches_returned_unchanged :
  forall (c : Crew.LeetCodeCrew) (problem_description language : string)
         (approaches : list Tasks.SolutionApproach)
         (criteria_output : Crew.TaskOutput Tasks.SolutionCriteria),
    Crew.kickoff c problem_description language
    = Crew.KickoffDone (Scenario.approaches_output approaches)
        criteria_output ->
    StronglySorted (Py.key_le Tasks.rank) approaches ->
    Crew.approaches
      (Crew.solve_leetcode_problem c problem_description language)
    = approaches
    /\ forall result,
         aggregate problem_description language
           (Crew.solve_leetcode_problem c problem_description language)
         = inl (ResultDict result) ->
         Result.solutions result = approaches
         /\ Result.approaches result = map approach_response approaches.
Proof.
  intros c pd lang approaches o2 Hrun Hsorted.
  rewrite (solve_when_done _ _ _ _ _ Hrun).
  assert (Happ : Crew.approaches
                   (Crew.parse_criteria o2
                      (Crew.parse_approaches
                         (Scenario.approaches_output approaches)
                         Crew.new_result)) = approaches).
  { rewrite parsed_approaches. simpl. now apply sorted_fixes_ordered. }
  split; [exact Happ |].
  intros result H. apply aggregate_result_inv in H. destruct H as [-> _].
  unfold build_result. cbn [Result.solutions Result.approaches].
  now rewrite Happ.
Qed.

Lemma ordered_approaches_witness :
  StronglySorted (Py.key_le Tasks.rank)
    [Scenario.hash_map; Scenario.brute_force; Scenario.two_pointers]
  /\ Crew.approaches
       (Crew.solve_leetcode_problem
          (Scenario.crew_yielding
             (Crew.KickoffDone
                (Scenario.approaches_output
                   [Scenario.hash_map; Scenario.brute_force;
                    Scenario.two_pointers])
                Crew.OutputNone))
          Scenario.two_sum_text "python")
     = [Scenario.hash_map; Scenario.brute_force; Scenario.two_pointers].
Proof.
  assert (Hsorted : StronglySorted (Py.key_le Tasks.rank)
                      [Scenario.hash_map; Scenario.brute_force;
                       Scenario.two_pointers]).
  { repeat constructor; unfold Py.key_le; simpl; lia. }
  split; [exact Hsorted |].
  apply (ordered_approaches_returned_unchanged
           (Scenario.crew_yielding
              (Crew.KickoffDone
                 (Scenario.approaches_output
                    [Scenario.hash_map; Scenario.brute_force;
                     Scenario.two_pointers])
                 Crew.OutputNone))
           Scenario.two_sum_text "python" _ Crew.OutputNone eq_refl Hsorted).
Defined.

(** X14.  Whatever the crew run does, the coordinator answers, with
    status ["success"] or ["error"] and with approaches in rank order.
    With status ["error"] both lists are empty and the error text opens
    with the coordinator's own prefix.  The error text is empty exactly
    when the run returned and the second stage's output was not an
    unconverted text.  The approaches list is empty exactly when the run
    raised or the first stage parsed to an empty list. *)
Theorem coordinator_always_answers :
  forall (c : Crew.LeetCodeCrew) (problem_description language : string),
    Extra.coordinator_answer c problem_description language.
Proof.
  intros c pd lang. unfold Extra.coordinator_answer. cbv zeta.
  destruct (Crew.kickoff c pd lang) as [e | o1 o2] eqn:Hrun.
  - rewrite (solve_when_raised _ _ _ _ Hrun).
    cbn [Crew.status Crew.approaches Crew.criteria Crew.error].
    split; [now right |]. split; [constructor |].
    split; [intros _; repeat split; apply prefix_append |].
    split.
    + split; [discriminate | intros (o1 & o2 & H & _); discriminate H].
    + split; [intros _; left; now exists e | reflexivity].
  - rewrite (solve_when_done _ _ _ _ _ Hrun).
    rewrite parsed_status, parsed_approaches.
    split; [now left |].
    split.
    { destruct o1 as [| raw | parsed]; try (repeat constructor).
      apply sorted_ordered. }
    split; [discriminate |].
    split.
    + split.
      * intros Herr. exists o1, o2. split; [reflexivity |].
        intros raw ->. destruct o1; discriminate Herr.
      * intros (o1' & o2' & H & Hraw). injection H as <- <-.
        destruct o2 as [| raw | parsed]; [| now elim (Hraw raw) |];
          now destruct o1.
    + split.
      * intros Hnil. right. exists o2.
        destruct o1 as [| raw | [parsed]]; try discriminate Hnil.
        cbn in Hnil. apply sorted_nil_iff in Hnil. now subst.
      * intros [[e H] | [o2' H]]; [discriminate H |].
        injection H as -> _. reflexivity.
Qed.

Lemma append_assoc_str (a b c : string) :
  ((a ++ b) ++ c)%string = (a ++ b ++ c)%string.
Proof. induction a as [| x a IH]; simpl; [reflexivity | now rewrite IH]. Qed.

(** X15.  The sections of [full_text] follow the list of approaches:
    the text for a list made of two parts is the text of the first part
    followed by the text of the second, whose headings go on counting
    where the first part stopped. *)
Theorem full_text_sections_follow_the_list :
  forall (language : string) (i : nat) (l1 l2 : list ApproachResponse.t),
    make_full_text language i (l1 ++ l2)
    = (make_full_text language i l1
         ++ make_full_text language (i + List.length l1) l2)%string.
Proof.
  intros lang i l1. revert i.
  induction l1 as [| a l1 IH]; intros i l2;
    cbn [make_full_text app List.length String.append].
  - now rewrite Nat.add_0_r.
  - rewrite IH, append_assoc_str.
    replace (i + S (List.length l1))%nat with (S i + List.length l1)%nat
      by lia.
    reflexivity.
Qed.

(** ** The string-list normalizer, further *)

Section NormalizerFurther.
Variable JSON : Type.
Variable json_truthy : JSON -> bool.
Variable json_str : JSON -> string.
Variable json_loads : string -> option (list JSON).

Local Abbreviation respond :=
  (TestNewApi.respond JSON json_truthy json_str json_loads).
Local Abbreviation extract := (TestNewApi.extract JSON json_loads).
Local Abbreviation item_truthy := (TestNewApi.item_truthy JSON json_truthy).
Local Abbreviation item_str := (TestNewApi.item_str JSON json_str).

Lemma respond_criteria (result : TestNewApi.CrewResult) :
  TestNewApi.criteria (respond result)
  = match snd (extract result) with
    | [] => ["No criteria could be extracted"]
    | item :: items =>
        map (fun item => Py.strip (item_str item))
          (filter item_truthy (item :: items))
    end.
Proof.
  unfold TestNewApi.respond.
  destruct (TestNewApi.extract JSON json_loads result) as [solution array].
  destruct array; reflexivity.
Qed.

End NormalizerFurther.

(** X16.  Every criterion the normalizer returns is stripped: it has no
    whitespace at either end, whatever the crew result and whatever
    [json.loads] decodes. *)
Theorem returned_criteria_are_stripped :
  forall (JSON : Type) (json_truthy : JSON -> bool) (json_str : JSON -> string)
         (json_loads : string -> option (list JSON))
         (result : TestNewApi.CrewResult),
    Forall (fun criterion => Py.strip criterion = criterion)
      (TestNewApi.criteria
         (TestNewApi.respond JSON json_truthy json_str json_loads result)).
Proof.
  intros JSON jt js jl result. rewrite respond_criteria.
  destruct (snd (TestNewApi.extract JSON jl result)) as [| item items].
  - repeat constructor.
  - apply Forall_map, Forall_forall. intros x _. apply strip_idempotent.
Qed.

(** X17.  The default text ["No criteria could be extracted"] stands in
    only when nothing at all was extracted.  When something was
    extracted, falsy items are dropped without replacement, so the
    returned list is empty exactly when every extracted item is falsy. *)
Theorem criteria_empty_when_all_items_falsy :
  forall (JSON : Type) (json_truthy : JSON -> bool) (json_str : JSON -> string)
         (json_loads : string -> option (list JSON))
         (result : TestNewApi.CrewResult),
    let extracted := snd (TestNewApi.extract JSON json_loads result) in
    let criteria :=
      TestNewApi.criteria
        (TestNewApi.respond JSON json_truthy json_str json_loads result) in
    (extracted = [] -> criteria = ["No criteria could be extracted"])
    /\ (criteria = []
        <-> extracted <> []
            /\ Forall (fun item =>
                         TestNewApi.item_truthy JSON json_truthy item = false)
                 extracted)
    /\ (List.length criteria <= Nat.max 1 (List.length extracted))%nat.
Proof.
  intros JSON jt js jl result extracted criteria.
  subst criteria. rewrite respond_criteria. fold extracted.
  destruct extracted as [| item items].
  - split; [reflexivity |].
    split; [| simpl; lia].
    split; [discriminate | now intros [H _]].
  - split; [discriminate |].
    split.
    + split.
      * intros H. apply map_eq_nil in H. split; [discriminate |].
        apply Forall_forall. intros x Hx.
        destruct (TestNewApi.item_truthy JSON jt x) eqn:E; [| reflexivity].
        assert (Hin : In x (filter (TestNewApi.item_truthy JSON jt)
                              (item :: items)))
          by (apply filter_In; now split).
        rewrite H in Hin. destruct Hin.
      * intros [_ H].
        assert (Hf : filter (TestNewApi.item_truthy JSON jt) (item :: items)
                     = []).
        { induction H as [| x l Hx _ IH]; simpl; [reflexivity |].
          now rewrite Hx. }
        now rewrite Hf.
    + rewrite length_map.
      pose proof (filter_length_le (TestNewApi.item_truthy JSON jt)
                    (item :: items)).
      lia.
Qed.

(** X18.  Through the [/analyze] endpoint the crew manager's answer is
    always a dict, so the handler with its extraction and line splitting
    is never used: a criteria text that is not a bracketed array, or that
    [json.loads] rejects, comes back whole as the only criterion (none
    when the text is empty), however many lines it has. *)
Theorem analyze_endpoint_keeps_undecoded_text_whole :
  forall (JSON : Type) (json_truthy : JSON -> bool) (json_str : JSON -> string)
         (json_loads : string -> option (list JSON))
         (crew_manager : TestNewCrew.CodingCrewManager)
         (request : TestNewEndpoint.ProblemRequest)
         (solution_output : option string) (text : string),
    TestNewCrew.kickoff crew_manager (TestNewEndpoint.problem request)
      (Extra.technology_of request)
    = TestNewCrew.KickoffDone solution_output text ->
    TestNewApi.bracketed text = false \/ json_loads text = None ->
    TestNewEndpoint.analyze_problem JSON json_truthy json_str json_loads
      crew_manager request
    = inl {| TestNewApi.criteria :=
               if Py.truthy text then [Py.strip text] else [];
             TestNewApi.solution :=
               match solution_output with
               | Some s => s
               | None => "No solution generated"
               end |}.
Proof.
  intros JSON jt js jl manager request out text Hrun Htext.
  unfold TestNewEndpoint.analyze_problem, TestNewCrew.analyze_problem.
  fold (Extra.technology_of request). rewrite Hrun.
  unfold TestNewApi.respond, TestNewApi.extract,
    TestNewApi.parse_dict_criteria.
  assert (Hparse : (if TestNewApi.bracketed text
                    then match jl text with
                         | Some criteria_array =>
                             map TestNewApi.Decoded criteria_array
                         | None => [TestNewApi.Text text]
                         end
                    else [TestNewApi.Text text])
                   = [TestNewApi.Text text]).
  { destruct Htext as [-> | ->]; [reflexivity |].
    now destruct (TestNewApi.bracketed text). }
  rewrite Hparse. cbn. now destruct (Py.truthy text).
Qed.

Lemma analyze_endpoint_witness :
  TestNewApi.bracketed Sample.two_line_text = false
  /\ TestNewEndpoint.analyze_problem unit (fun _ => true) (fun _ => "")
       (fun _ => None) Sample.two_line_manager Sample.two_sum_problem
     = inl {| TestNewApi.criteria := [Sample.two_line_text];
              TestNewApi.solution := "def two_sum(): ..." |}.
Proof.
  split; [reflexivity |].
  apply (analyze_endpoint_keeps_undecoded_text_whole unit (fun _ => true)
           (fun _ => "") (fun _ => None) Sample.two_line_manager
           Sample.two_sum_problem (Some "def two_sum(): ...")
           Sample.two_line_text eq_refl).
  left. reflexivity.
Defined.

(** X19.  The line splitting of line 108 yields at most one item per
    line of the text, and no item starts or ends with a double quote. *)
Theorem split_lines_items_unquoted :
  forall text : string,
    Forall Extra.unquoted (TestNewApi.split_lines text)
    /\ (List.length (TestNewApi.split_lines text)
        <= List.length (Py.split Py.newline text))%nat.
Proof.
  intros text. unfold TestNewApi.split_lines. split.
  - apply Forall_map, Forall_forall. intros line _.
    unfold Extra.unquoted, Py.strip_chars. cbv zeta.
    rewrite lstrip_by_keeps_rstripped by apply rstrip_by_idempotent.
    apply lstrip_by_idempotent.
  - rewrite length_map. apply filter_length_le.
Qed.

(** ** The visualizer service *)






Lemma replace_char_chars (old new : ascii) (s : string) :
  list_ascii_of_string (Py.replace_char old new s)
  = map (fun c => if Ascii.eqb c old then new else c)
      (list_ascii_of_string s).
Proof. induction s as [| c s IH]; simpl; [reflexivity | now rewrite IH]. Qed.

Lemma replace_char_length (old new : ascii) (s : string) :
  String.length (Py.replace_char old new s) = String.length s.
Proof. induction s as [| c s IH]; simpl; [reflexivity | now rewrite IH]. Qed.

(** X21.  The escaping applied to step texts and error messages before
    they become node labels leaves no double quote in the label, keeps
    its length, changes nothing in a text that has none, and is
    idempotent. *)
Theorem escaped_labels_hold_no_double_quote :
  forall text : string,
    Extra.quote_free (Visualizer.escape_quotes text)
    /\ String.length (Visualizer.escape_quotes text) = String.length text
    /\ (Extra.quote_free text -> Visualizer.escape_quotes text = text)
    /\ Visualizer.escape_quotes (Visualizer.escape_quotes text)
       = Visualizer.escape_quotes text.
Proof.
  intros text. unfold Extra.quote_free, Visualizer.escape_quotes.
  assert (Hfree : ~ In Py.dquote
                      (list_ascii_of_string
                         (Py.replace_char Py.dquote "'" text))).
  { rewrite replace_char_chars. intros Hin.
    apply in_map_iff in Hin. destruct Hin as (c & Hc & _).
    destruct (Ascii.eqb c Py.dquote) eqn:E; [discriminate Hc |].
    apply Ascii.eqb_neq in E. contradiction. }
  assert (Hsame : forall s,
             ~ In Py.dquote (list_ascii_of_string s) ->
             Py.replace_char Py.dquote "'" s = s).
  { induction s as [| c s IH]; simpl; intros Hs; [reflexivity |].
    destruct (Ascii.eqb c Py.dquote) eqn:E.
    - apply Ascii.eqb_eq in E. elim Hs. now left.
    - rewrite IH; [reflexivity |]. intros Hin. apply Hs. now right. }
  split; [exact Hfree |].
  split.
  { apply replace_char_length. }
  split; [apply Hsame |].
  apply Hsame, Hfree.
Qed.

Lemma escaped_labels_witness :
  Extra.quote_free "unexpected token"
  /\ Visualizer.escape_quotes "unexpected token" = "unexpected token".
Proof.
  assert (Hfree : Extra.quote_free "unexpected token").
  { unfold Extra.quote_free. simpl. intros H.
    repeat (destruct H as [H | H]; [discriminate H |]). exact H. }
  split; [exact Hfree |].
  destruct (escaped_labels_hold_no_double_quote "unexpected token")
    as (_ & _ & H & _).
  exact (H Hfree).
Defined.

Lemma visualize_outcome (analysis : Visualizer.Analysis) :
  Extra.visualization_outcome analysis (Visualizer.visualize analysis).
Proof.
  unfold Extra.visualization_outcome, Visualizer.visualize,
    Visualizer._generate_diagram_from_analysis, Visualizer.get_analysis.
  destruct (Visualizer.error_key analysis) as [e |].
  - cbn. split; [now right |].
    split; [split; [discriminate | intros [H _]; discriminate H] |].
    split; [discriminate |].
    split; [intros _; exists e; repeat split; now left |].
    intros e' He. injection He as <-. now split.
  - destruct (Visualizer.analysis_key analysis) as [inner |].
    + destruct (Visualizer.dict_truthy inner) eqn:Ht; cbn.
      * split; [now left |].
        split; [split; [now split | reflexivity] |].
        split; [intros _; repeat split |].
        split; [discriminate | discriminate].
      * split; [now right |].
        split; [split; [discriminate | intros [_ H]; discriminate H] |].
        split; [discriminate |].
        split; [| discriminate].
        intros _. eexists. repeat split. right. now split.
    + cbn. split; [now right |].
      split; [split; [discriminate | intros [_ H]; discriminate H] |].
      split; [discriminate |].
      split; [| discriminate].
      intros _. eexists. repeat split. right. now split.
Qed.

(** X22.  Once the client has answered, [generate_visualization] always
    returns a dict, with status ["success"] or ["error"].  The status is
    ["success"] exactly when the answer has no [error] key and a
    non-empty [analysis]; then the dict carries the diagram drawn from
    the analysis.  Otherwise it carries the error text (the client's
    own, which takes precedence over any analysis, or the missing-analysis
    message) and the error diagram built from that same text. *)
Theorem visualization_reports_success_or_error :
  forall (analyze_algorithm : string -> option string
                              -> Visualizer.Analysis + string)
         (code : string) (problem_description : option string)
         (analysis : Visualizer.Analysis),
    analyze_algorithm code problem_description = inl analysis ->
    exists v,
      Visualizer.generate_visualization analyze_algorithm code
        problem_description = inl v
      /\ Extra.visualization_outcome analysis v.
Proof.
  intros client code pd analysis Hclient.
  unfold Visualizer.generate_visualization. rewrite Hclient.
  eexists. split; [reflexivity | apply visualize_outcome].
Qed.

Lemma visualization_reports_witness :
  exists v,
    Visualizer.generate_visualization
      (fun _ _ => inl Sample.binary_search_analysis)
      "def search(a, x): ..." None = inl v
    /\ Extra.visualization_outcome Sample.binary_search_analysis v
    /\ Visualizer.status v = "success".
Proof.
  destruct (visualization_reports_success_or_error
              (fun _ _ => inl Sample.binary_search_analysis)
              "def search(a, x): ..." None
              Sample.binary_search_analysis eq_refl) as (v & Hv & Hout).
  exists v. split; [exact Hv |]. split; [exact Hout |].
  apply (proj2 (proj1 (proj2 Hout))). now split.
Defined.


